(** * virtnbdbackup: output sinks and the remote execution client

    A shallow embedding of

    - [libvirtnbdbackup/outputhelper/outputhelper.py]
      (classes [outputHelper.Directory] and [outputHelper.Zip]), and
    - [libvirtnbdbackup/sshutil/sshutil.py] (class [Client]),

    as programs of a state-and-exception monad.  Both files are thin layers
    over the Python runtime and two libraries (zipfile, paramiko): every call
    that leaves the repository is a constructor of [call], answered by an
    environment [Env].  The program's own control flow (guards, try/except
    clauses, attribute updates, logging, string formatting) is modelled as
    written.  Statements about errors and about which calls are made hold
    for every environment; statements about the bytes that reach a file or
    an archive member are made for the in-memory model [MemFS] of Python
    file objects and of a stored zip archive. *)

From Stdlib Require Import ZArith Lia Ascii String.
From stdpp Require Import base strings list gmap.

Local Open Scope string_scope.
Local Open Scope Z_scope.
Local Open Scope list_scope.

(** ** Python strings and bytes

    [bytes] values are strings of 8-bit characters.  A [str] value is
    represented by its UTF-8 encoding, so [bytes.decode()] is the identity on
    well-formed UTF-8 and raises [UnicodeDecodeError] otherwise. *)

Module PyBytes.

(** The ASCII whitespace removed by [bytes.strip()]:
    space, TAB, LF, VT, FF, CR. *)
Definition is_space (c : ascii) : bool :=
  let n := nat_of_ascii c in
  (Nat.eqb n 32 || Nat.eqb n 9 || Nat.eqb n 10 || Nat.eqb n 11
   || Nat.eqb n 12 || Nat.eqb n 13)%bool.

Fixpoint lstrip (s : string) : string :=
  match s with
  | EmptyString => EmptyString
  | String c s' => if is_space c then lstrip s' else s
  end.

Fixpoint rstrip (s : string) : string :=
  match s with
  | EmptyString => EmptyString
  | String c s' =>
      match rstrip s' with
      | EmptyString => if is_space c then EmptyString else String c EmptyString
      | r => String c r
      end
  end.

Definition strip (s : string) : string := rstrip (lstrip s).

Definition byte_in (lo hi : nat) (c : ascii) : bool :=
  let n := nat_of_ascii c in (Nat.leb lo n && Nat.leb n hi)%bool.

Definition cont : ascii -> bool := byte_in 128 191.

(** Well-formed UTF-8 (Unicode 15, table 3-7), the condition under which
    [bytes.decode()] returns. *)
Fixpoint valid_utf8 (s : string) : bool :=
  match s with
  | EmptyString => true
  | String a r1 =>
      if byte_in 0 127 a then valid_utf8 r1 else
      match r1 with
      | EmptyString => false
      | String b r2 =>
          if byte_in 194 223 a then (cont b && valid_utf8 r2)%bool else
          match r2 with
          | EmptyString => false
          | String c r3 =>
              if byte_in 224 239 a then
                ((if byte_in 224 224 a then byte_in 160 191 b
                  else if byte_in 237 237 a then byte_in 128 159 b
                  else cont b) && cont c && valid_utf8 r3)%bool
              else
              match r3 with
              | EmptyString => false
              | String d r4 =>
                  if byte_in 240 244 a then
                    ((if byte_in 240 240 a then byte_in 144 191 b
                      else if byte_in 244 244 a then byte_in 128 143 b
                      else cont b) && cont c && cont d && valid_utf8 r4)%bool
                  else false
              end
          end
      end
  end.

(** [len(data)] *)
Definition len (s : string) : Z := Z.of_nat (String.length s).

(** [chr(0) in s] *)
Fixpoint has_nul (s : string) : bool :=
  match s with
  | EmptyString => false
  | String c r => (Ascii.eqb c Ascii.zero || has_nul r)%bool
  end.

(** [s[0:s.find(chr(0))]] when [s] holds a NUL, [s] itself otherwise. *)
Fixpoint cut_at_nul (s : string) : string :=
  match s with
  | EmptyString => EmptyString
  | String c r =>
      if Ascii.eqb c Ascii.zero then EmptyString else String c (cut_at_nul r)
  end.

(** [b"".join(chunks)] *)
Definition join (chunks : list string) : string :=
  foldr String.append "" chunks.

End PyBytes.

(** ** Exceptions *)

(** The builtin and library exception classes that the two modules can meet,
    with Python's subclass relation.  [IOError] is an alias of [OSError] and
    [zipfile.error] an alias of [BadZipFile]. *)
Inductive exn_class :=
  | BaseException | KeyboardInterrupt | PyException
  | OSError | FileNotFoundError | FileExistsError | IsADirectoryError
  | PermissionError | TimeoutError
  | ValueError | UnicodeDecodeError | TypeError | AttributeError | EOFError
  | BadZipFile
  | SSHException | AuthenticationException | BadHostKeyException
  | SFTPError.

Global Instance exn_class_eq_dec : EqDecision exn_class.
Proof. solve_decision. Defined.

Abbreviation IOError := OSError (only parsing).
Abbreviation zipfile_error := BadZipFile (only parsing).

(** The direct base class ([None] for the root). *)
Definition base_class (c : exn_class) : option exn_class :=
  match c with
  | BaseException => None
  | KeyboardInterrupt | PyException => Some BaseException
  | OSError | ValueError | TypeError | AttributeError | EOFError
  | BadZipFile | SSHException | SFTPError => Some PyException
  | FileNotFoundError | FileExistsError | IsADirectoryError
  | PermissionError | TimeoutError => Some OSError
  | UnicodeDecodeError => Some ValueError
  | AuthenticationException | BadHostKeyException => Some SSHException
  end.

Fixpoint issubclass_upto (depth : nat) (c d : exn_class) : bool :=
  if decide (c = d) then true else
  match depth with
  | O => false
  | S n => match base_class c with
           | Some b => issubclass_upto n b d
           | None => false
           end
  end.

(** The hierarchy above is three levels deep. *)
Definition issubclass : exn_class -> exn_class -> bool := issubclass_upto 3.
Arguments issubclass : simpl never.

(** An exception raised by the runtime or a library: its class and the text
    [str(e)] gives. *)
Record lib_exn := LibExn { exn_cls : exn_class; exn_text : string }.

(** Modelled from the spec: the error kinds of section 7.  The modules
    [outputhelper/exceptions.py] and [sshutil/exceptions.py] that declare
    [OutputCreateDirectory] (the spec's CreateDirectoryError),
    [OutputOpenException] (OpenError) and [sshutilError] (ConnectionError and
    RemoteCommandError alike) are not among the sources; they are taken as
    direct subclasses of [Exception] carrying their constructor arguments.
    An exception object passed as an argument is recorded by its text. *)
Inductive exn :=
  | Lib (e : lib_exn)
  | OutputCreateDirectory (args : list string)
  | OutputOpenException (msg : string)
  | sshutilError (msg : string).

Definition isinstance (e : exn) (c : exn_class) : bool :=
  match e with
  | Lib l => issubclass (exn_cls l) c
  | _ => issubclass PyException c
  end.

(** [str(e)], as an f-string or a [%s] log argument renders it: the single
    argument, or the tuple of the quoted arguments. *)
Definition exn_str (e : exn) : string :=
  match e with
  | Lib l => exn_text l
  | OutputCreateDirectory [a] | OutputOpenException a | sshutilError a => a
  | OutputCreateDirectory args =>
      "(" +:+ String.concat ", " ((fun a => "'" +:+ a +:+ "'") <$> args) +:+ ")"
  end.

(** A failed attribute lookup on [None]. *)
Definition NoneType_has_no (attr : string) : exn :=
  Lib (LibExn AttributeError
         ("'NoneType' object has no attribute '" +:+ attr +:+ "'")).

(** ** The environment

    Python objects created by a call are named by an object identity [oid]
    that the runtime allocates; the call that initialises the object carries
    that identity, as [__init__] carries [self]. *)

Definition oid := nat.

(** [datetime.datetime], and the tuple [zipfile] reads a member's time from
    (year, month, day, hour, minute, second). *)
Record datetime := DateTime {
  year : Z; month : Z; day : Z; hour : Z; minute : Z; second : Z;
  microsecond : Z }.

Definition replace_microsecond (d : datetime) (us : Z) : datetime :=
  DateTime (year d) (month d) (day d) (hour d) (minute d) (second d) us.

Definition timetuple (d : datetime) : Z * Z * Z * Z * Z * Z :=
  (year d, month d, day d, hour d, minute d, second d).

(** [zipfile.ZIP_STORED] *)
Definition ZIP_STORED : Z := 0.

(** [zipfile.ZipInfo]: the attributes the code sets. *)
Record ZipInfo := MkZipInfo {
  filename : string;
  date_time : Z * Z * Z * Z * Z * Z;
  compress_type : Z }.

(** [zipfile.ZipInfo(filename=...)].  The constructor terminates the name at
    the first NUL byte; the date defaults to the first day of 1980 and the
    member is stored.  (It also replaces [os.sep] by a slash where the two
    differ, which they do not on the systems libvirt runs on.) *)
Definition ZipInfo_init (filename : string) : ZipInfo :=
  MkZipInfo (PyBytes.cut_at_nul filename) (1980, 1, 1, 0, 0, 0) ZIP_STORED.

(** [zinfo.date_time = ...] and [zinfo.compress_type = ...] *)
Definition with_date_time (zi : ZipInfo) (t : Z * Z * Z * Z * Z * Z)
    : ZipInfo :=
  MkZipInfo (filename zi) t (compress_type zi).

Definition with_compress_type (zi : ZipInfo) (c : Z) : ZipInfo :=
  MkZipInfo (filename zi) (date_time zi) c.

Inductive host_key_policy := AutoAddPolicy | RejectPolicy | WarningPolicy.

(** Every call that leaves the repository. *)
Inductive call :=
  (* os, builtins *)
  | os_path_exists (path : string)
  | os_path_isdir (path : string)
  | os_makedirs (path : string)
  | builtin_open (h : oid) (file mode : string)
  | file_write (h : oid) (data : string)
  | file_flush (h : oid)
  | file_close (h : oid)
  | datetime_now
  (* zipfile, on [sys.stdout.buffer] *)
  | ZipFile_init (z : oid) (mode : string) (compression : Z)
  | ZipFile_open (z h : oid) (zinfo : ZipInfo) (mode : string)
      (force_zip64 : bool)
  | zipext_write (h : oid) (data : string)
  | zipext_close (h : oid)
  (* paramiko *)
  | SSHClient_init (c : oid)
  | load_system_host_keys (c : oid)
  | set_missing_host_key_policy (c : oid) (policy : host_key_policy)
  | SSHClient_connect (c : oid) (host username : string) (timeout : Z)
  | get_transport (c : oid)
  | SFTPClient_from_transport (s : oid) (t : option oid)
  | sftp_stat (s : oid) (path : string)
  | sftp_get (s : oid) (remotepath localpath : string)
  | sftp_put (s : oid) (localpath remotepath : string)
  | sftp_close (s : oid)
  | exec_command (c ch : oid) (command : string)
  | recv_exit_status (ch : oid)
  | stderr_read (ch : oid)
  | stdout_read (ch : oid)
  | SSHClient_close (c : oid).

(** What a call returns when it returns.  [get_transport] answers whether the
    client has a transport, [SFTPClient_from_transport] whether it built a
    client ([false]: it returned [None], as paramiko does when no channel
    could be opened). *)
Definition answer (c : call) : Type :=
  match c with
  | os_path_exists _ | os_path_isdir _
  | get_transport _ | SFTPClient_from_transport _ _ => bool
  | file_write _ _ | zipext_write _ _ | recv_exit_status _ => Z
  | stderr_read _ | stdout_read _ => string
  | datetime_now => datetime
  | _ => unit
  end.

(** An environment: a state of its own and, for every call, an exception or an
    answer. *)
Record Env := MkEnv {
  ext : Type;
  respond : forall c : call, ext -> (lib_exn + answer c) * ext }.

(** Answers as plain data, for the record of what happened. *)
Inductive value :=
  | VUnit | VBool (b : bool) | VInt (z : Z) | VBytes (s : string)
  | VTime (d : datetime).

Definition value_of (c : call) : answer c -> value :=
  match c with
  | os_path_exists _ | os_path_isdir _
  | get_transport _ | SFTPClient_from_transport _ _ => VBool
  | file_write _ _ | zipext_write _ _ | recv_exit_status _ => VInt
  | stderr_read _ | stdout_read _ => VBytes
  | datetime_now => VTime
  | _ => fun _ => VUnit
  end.

Inductive outcome := Returned (v : value) | Threw (e : lib_exn).

Record event := Event { ev_call : call; ev_out : outcome }.

(** ** Logging *)

Inductive loglevel := DEBUG | INFO | WARNING.

(** One [logging] call: the logger ([log] is the module's logger, [logging.x]
    the root logger), the level, the format and its rendered arguments. *)
Record log_record := LogRecord {
  logger : string; level : loglevel; fmt : string; args : list string }.

(** ** The monad of the program *)

Inductive result (A : Type) :=
  | Ok (a : A)
  | Raised (e : exn).
Arguments Ok {A} a.
Arguments Raised {A} e.

(** [if x:] on an optional string: neither [None] nor empty. *)
Definition truthy (o : option string) : bool :=
  match o with
  | Some s => negb (String.eqb s "")
  | None => false
  end.

(** An optional string inside an f-string or as a [%s] argument. *)
Definition fstr (o : option string) : string := default "None" o.

(** Modelled from the spec: [processInfo], the ProcessResult of section 3
    ([{pid, logFile, stderr, stdout}]), declared in
    [libvirtnbdbackup/common/common.py], which is not among the sources.  The
    fields are in the order of the call [processInfo(pid, logFile, err, out)]. *)
Record processInfo := MkProcessInfo {
  pid : option string;
  logFile : option string;
  err : string;
  out : string }.

Inductive Mode := UPLOAD | DOWNLOAD.

(** The bound method stored in [self.copy]. *)
Inductive copy_method := bound_copyFrom | bound_copyTo.

Record Client := MkClient {
  client : option oid;
  host : string;
  user : string;
  copy : copy_method;
  connection : oid }.

Record Directory := MkDirectory {
  targetDir : option string;
  fileHandle : option oid }.

Record Zip := MkZip {
  zipStream : option oid;
  zipFileStream : option oid }.

(** The sink a caller holds: one of the two classes nested in
    [outputHelper]. *)
Inductive sink :=
  | DirectorySink (d : Directory)
  | ZipSink (z : Zip).

Definition outputhelper_logger : string :=
  "libvirtnbdbackup.outputhelper.outputhelper".
Definition sshutil_logger : string := "libvirtnbdbackup.sshutil.sshutil".
Definition root_logger : string := "root".

Section Program.

Context (env : Env).

(** The environment's state, the next free object identity, the calls made
    so far with their outcomes, and the log. *)
Record World := MkWorld {
  ext_state : ext env;
  next_oid : oid;
  trace : list event;
  logs : list log_record }.

Definition M (A : Type) : Type := World -> result A * World.

Definition ret {A} (a : A) : M A := fun w => (Ok a, w).

Definition raise {A} (e : exn) : M A := fun w => (Raised e, w).

Definition bind {A B} (m : M A) (k : A -> M B) : M B :=
  fun w => match m w with
           | (Ok a, w') => k a w'
           | (Raised e, w') => (Raised e, w')
           end.

Notation "x <- m ;; k" := (bind m (fun x => k))
  (at level 100, m at next level, right associativity).
Notation "m ;;; k" := (bind m (fun _ => k))
  (at level 100, right associativity).

(** [try: body except C1 as e: h1 except C2 as e: h2 ...]: the first clause
    whose class the exception is an instance of handles it. *)
Definition try_except {A} (body : M A)
    (clauses : list (exn_class * (exn -> M A))) : M A :=
  fun w => match body w with
           | (Ok a, w') => (Ok a, w')
           | (Raised e, w') =>
               match List.find (fun cl => isinstance e (fst cl)) clauses with
               | Some cl => snd cl e w'
               | None => (Raised e, w')
               end
           end.

(** A call into the environment, recorded in the trace. *)
Definition extcall (c : call) : M (answer c) :=
  fun w =>
    let (r, s) := respond env c (ext_state w) in
    match r with
    | inl e =>
        (Raised (Lib e),
         MkWorld s (next_oid w) (trace w ++ [Event c (Threw e)]) (logs w))
    | inr a =>
        (Ok a,
         MkWorld s (next_oid w)
           (trace w ++ [Event c (Returned (value_of c a))]) (logs w))
    end.

(** A new object identity. *)
Definition alloc : M oid :=
  fun w => (Ok (next_oid w),
            MkWorld (ext_state w) (S (next_oid w)) (trace w) (logs w)).

Definition py_log (name : string) (lvl : loglevel) (f : string)
    (a : list string) : M unit :=
  fun w => (Ok tt,
            MkWorld (ext_state w) (next_oid w) (trace w)
              (logs w ++ [LogRecord name lvl f a])).

(** [bytes.decode()] *)
Definition decode (b : string) : M string :=
  if PyBytes.valid_utf8 b then ret b
  else raise (Lib (LibExn UnicodeDecodeError
                     "'utf-8' codec can't decode bytes")).

(** *** outputhelper.py, class [outputHelper.Directory] *)

Definition Directory__makeDir (self : Directory) : M unit :=
  match targetDir self with
  | None =>
      raise (Lib (LibExn TypeError
                    "stat: path should be string, bytes, os.PathLike or integer, not NoneType"))
  | Some dir =>
      e1 <- extcall (os_path_exists dir) ;;
      (if e1 : bool then
         d <- extcall (os_path_isdir dir) ;;
         if negb d then
           raise (OutputCreateDirectory
                    ["Specified target is a file, not a directory"])
         else ret tt
       else ret tt) ;;;
      e2 <- extcall (os_path_exists dir) ;;
      if negb e2 then
        try_except (extcall (os_makedirs dir))
          [(OSError, fun e =>
              raise (OutputCreateDirectory
                       ["Cant create target directory:"; exn_str e]))]
      else ret tt
  end.

Definition Directory_init (targetDir : option string) : M Directory :=
  let self := MkDirectory targetDir None in
  match targetDir with
  | Some _ => Directory__makeDir self ;;; ret self
  | None => ret self
  end.

(** [open(self, targetFile, mode="wb")]; returns the handle and [self] with
    [fileHandle] set. *)
Definition Directory_open (self : Directory) (targetFile : string)
    (mode : string) : M (oid * Directory) :=
  try_except
    (h <- alloc ;;
     extcall (builtin_open h targetFile mode) ;;;
     ret (h, MkDirectory (targetDir self) (Some h)))
    [(OSError, fun e =>
        raise (OutputOpenException
                 ("Unable to open target file: [" +:+ targetFile +:+ "]: "
                  +:+ exn_str e)))].

Definition Directory_open_default_mode : string := "wb".

Definition Directory_write (self : Directory) (data : string) : M Z :=
  match fileHandle self with
  | Some h => extcall (file_write h data)
  | None => raise (NoneType_has_no "write")
  end.

Definition Directory_flush (self : Directory) : M unit :=
  match fileHandle self with
  | Some h => extcall (file_flush h)
  | None => raise (NoneType_has_no "flush")
  end.

Definition Directory_close (self : Directory) : M unit :=
  match fileHandle self with
  | Some h => extcall (file_close h)
  | None => raise (NoneType_has_no "close")
  end.

(** *** outputhelper.py, class [outputHelper.Zip] *)

Definition Zip_init : M Zip :=
  py_log outputhelper_logger INFO "Writing zip file stream to stdout" [] ;;;
  try_except
    (z <- alloc ;;
     extcall (ZipFile_init z "x" ZIP_STORED) ;;;
     ret (MkZip (Some z) None))
    [(zipfile_error, fun e =>
        raise (OutputOpenException
                 ("Unable to open zip stream: " +:+ exn_str e)))].

(** [open(self, fileName, mode="w")] *)
Definition Zip_open (self : Zip) (fileName : string) (mode : string)
    : M (oid * Zip) :=
  let zipFile := ZipInfo_init fileName in
  now <- extcall datetime_now ;;
  let zipFile :=
    with_date_time zipFile (timetuple (replace_microsecond now 0)) in
  let zipFile := with_compress_type zipFile ZIP_STORED in
  try_except
    (match zipStream self with
     | Some z =>
         h <- alloc ;;
         extcall (ZipFile_open z h zipFile mode true) ;;;
         ret (h, MkZip (zipStream self) (Some h))
     | None => raise (NoneType_has_no "open")
     end)
    [(zipfile_error, fun e =>
        raise (OutputOpenException
                 ("Unable to open zip stream: " +:+ exn_str e)))].

Definition Zip_open_default_mode : string := "w".

Definition Zip_close (self : Zip) : M unit :=
  match zipFileStream self with
  | Some h => extcall (zipext_close h)
  | None => raise (NoneType_has_no "close")
  end.

Definition Zip_write (self : Zip) (data : string) : M Z :=
  match zipFileStream self with
  | Some h => extcall (zipext_write h data)
  | None => raise (NoneType_has_no "write")
  end.

(** *** Method calls on a sink

    What [fileStream.open(name)], [fileStream.write(data)],
    [fileStream.flush()] and [fileStream.close()] do for either class, by
    Python's attribute lookup.  Class [Zip] defines [__init__], [open],
    [close] and [write]: looking up [flush] on it fails. *)

Definition has_no_attribute (cls attr : string) : exn :=
  Lib (LibExn AttributeError
         ("'" +:+ cls +:+ "' object has no attribute '" +:+ attr +:+ "'")).

Definition sink_open (s : sink) (name : string) : M (oid * sink) :=
  match s with
  | DirectorySink d =>
      r <- Directory_open d name Directory_open_default_mode ;;
      ret (fst r, DirectorySink (snd r))
  | ZipSink z =>
      r <- Zip_open z name Zip_open_default_mode ;;
      ret (fst r, ZipSink (snd r))
  end.

Definition sink_write (s : sink) (data : string) : M Z :=
  match s with
  | DirectorySink d => Directory_write d data
  | ZipSink z => Zip_write z data
  end.

Definition sink_flush (s : sink) : M unit :=
  match s with
  | DirectorySink d => Directory_flush d
  | ZipSink _ => raise (has_no_attribute "Zip" "flush")
  end.

Definition sink_close (s : sink) : M unit :=
  match s with
  | DirectorySink d => Directory_close d
  | ZipSink z => Zip_close z
  end.

(** *** sshutil.py, class [Client] *)

(** [connect(self)], reading [self.host] and [self.user]. *)
Definition Client_connect (host user : string) : M oid :=
  py_log sshutil_logger INFO
    "Connecting remote system via ssh, username: [%s]" [user] ;;;
  try_except
    (client <- alloc ;;
     extcall (SSHClient_init client) ;;;
     extcall (load_system_host_keys client) ;;;
     extcall (set_missing_host_key_policy client AutoAddPolicy) ;;;
     extcall (SSHClient_connect client host user 5000) ;;;
     ret client)
    [(AuthenticationException, fun e =>
        raise (sshutilError
                 ("AuthenticationException occurred; did you remember to generate an SSH key? "
                  +:+ exn_str e)));
     (PyException, fun e =>
        raise (sshutilError ("Unknown exception occured: " +:+ exn_str e)))].

(** [__init__(self, host, user, mode=Mode.DOWNLOAD)] *)
Definition Client_init (host user : string) (mode : Mode) : M Client :=
  let copy := match mode with
              | UPLOAD => bound_copyTo
              | DOWNLOAD => bound_copyFrom
              end in
  connection <- Client_connect host user ;;
  ret (MkClient None host user copy connection).

Definition Client_init_default_mode : Mode := DOWNLOAD.

(** The property [sftp]:
    [SFTPClient.from_transport(self.connection.get_transport())].  The
    transport of a connection is named by the connection. *)
Definition Client_sftp (self : Client) : M (option oid) :=
  t <- extcall (get_transport (connection self)) ;;
  s <- alloc ;;
  made <- extcall (SFTPClient_from_transport s
                     (if t : bool then Some (connection self) else None)) ;;
  ret (if made : bool then Some s else None).

Definition Client_exists (self : Client) (filepath : string) : M bool :=
  try_except
    (s <- Client_sftp self ;;
     match s with
     | Some s => extcall (sftp_stat s filepath)
     | None => raise (NoneType_has_no "stat")
     end ;;;
     ret true)
    [(IOError, fun _ => ret false)].

Definition Client_copyFrom (self : Client) (filepath localpath : string)
    : M unit :=
  py_log sshutil_logger INFO "Downloading file [%s] to [%s]"
    [filepath; localpath] ;;;
  try_except
    (s <- Client_sftp self ;;
     match s with
     | Some s => extcall (sftp_get s filepath localpath)
     | None => raise (NoneType_has_no "get")
     end)
    [(SSHException, fun e =>
        py_log root_logger WARNING "Error during file copy: [%s]"
          [exn_str e])].

Definition Client_copyTo (self : Client) (localpath remotepath : string)
    : M unit :=
  py_log sshutil_logger INFO "Uploading file [%s] to [%s]"
    [localpath; remotepath] ;;;
  try_except
    (s <- Client_sftp self ;;
     match s with
     | Some s => extcall (sftp_put s localpath remotepath)
     | None => raise (NoneType_has_no "put")
     end)
    [(SSHException, fun e =>
        py_log root_logger WARNING "Error during file copy: [%s]"
          [exn_str e])].

(** [self.copy(a, b)] *)
Definition Client_copy (self : Client) (a b : string) : M unit :=
  match copy self with
  | bound_copyFrom => Client_copyFrom self a b
  | bound_copyTo => Client_copyTo self a b
  end.

Definition Client__execute (self : Client) (cmd : string)
    : M (Z * string * string) :=
  ch <- alloc ;;
  extcall (exec_command (connection self) ch cmd) ;;;
  ret_ <- extcall (recv_exit_status ch) ;;
  raw_err <- extcall (stderr_read ch) ;;
  err <- decode (PyBytes.strip raw_err) ;;
  raw_out <- extcall (stdout_read ch) ;;
  out <- decode (PyBytes.strip raw_out) ;;
  ret (ret_ : Z, err : string, out : string).

(** [run(self, cmd, pidFile=None, logFile=None)] *)
Definition Client_run (self : Client) (cmd : string)
    (pidFile logFile : option string) : M processInfo :=
  py_log root_logger DEBUG "Executing command: [%s]" [cmd] ;;;
  r <- Client__execute self cmd ;;
  let '(ret_, err, out) := r in
  (if negb (ret_ =? 0) then
     err' <- (if truthy logFile then
                r2 <- Client__execute self ("cat " +:+ fstr logFile) ;;
                ret (snd r2)
              else ret err) ;;
     raise (sshutilError
              ("Error during remote command: [" +:+ cmd +:+ "]: ["
               +:+ err' +:+ "]"))
   else ret tt) ;;;
  pid <- (if truthy pidFile then
            py_log root_logger DEBUG "PIDfile: [%s]" [fstr pidFile] ;;;
            r3 <- Client__execute self ("cat " +:+ fstr pidFile) ;;
            py_log root_logger DEBUG "PID: [%s]" [snd r3] ;;;
            ret (Some (snd r3))
          else ret None) ;;
  ret (MkProcessInfo pid logFile err out).

(** An object of a class that defines neither [__bool__] nor [__len__] is
    true. *)
Definition object_truth (o : oid) : bool := true.

Definition Client_disconnect (self : Client) : M unit :=
  s1 <- Client_sftp self ;;
  (if from_option object_truth false s1 then
     s2 <- Client_sftp self ;;
     match s2 with
     | Some s => extcall (sftp_close s)
     | None => raise (NoneType_has_no "close")
     end
   else ret tt) ;;;
  if object_truth (connection self) then
    extcall (SSHClient_close (connection self))
  else ret tt.

End Program.

Arguments MkWorld {env}.
Arguments ext_state {env}.
Arguments next_oid {env}.
Arguments trace {env}.
Arguments logs {env}.
Arguments ret {env A}.
Arguments raise {env A}.
Arguments bind {env A B}.
Arguments try_except {env A}.

Arguments extcall {env}.
Arguments alloc {env}.
Arguments py_log {env}.

(** ** The caller's entry cycle

    Section 6 of the specification: the producer calls [open] once per name,
    then [write] any number of times, then [close] once. *)

Section EntryCycle.

Context (env : Env).

Fixpoint write_all (s : sink) (chunks : list string) : M env (list Z) :=
  match chunks with
  | [] => ret []
  | data :: rest =>
      bind (sink_write env s data) (fun n =>
      bind (write_all s rest) (fun ns => ret (n :: ns)))
  end.

Definition write_entry (s : sink) (name : string) (chunks : list string)
    : M env (sink * list Z) :=
  bind (sink_open env s name) (fun r =>
  bind (write_all (snd r) chunks) (fun ns =>
  bind (sink_close env (snd r)) (fun _ => ret (snd r, ns)))).

End EntryCycle.

(** ** Two environments

    The theorems that hold for every outcome of the outside world are stated
    for an arbitrary [Env].  Statements about the bytes that end up in a file
    or an archive member, and the concrete runs below, need an environment
    that can be executed. *)

(** *** An in-memory file system and archive

    Regular files, directories, buffered file objects opened for writing
    (what [open(path, "wb")] returns: [write] buffers, [flush] and [close]
    move the buffer to the file), and one stored (uncompressed) archive whose
    members are written one at a time.  Paths are compared as written.

    Two things the model leaves out, and what the statements made on it ask
    for in their place.  A file written through two file objects at once is
    not modelled (a buffer goes to the end of the file), and objects are
    never reclaimed: CPython closes a file object that is still open when
    its last reference goes, which writes its buffer out.  So the statements
    about an entry ask that the sink is [idle] when the entry is opened: the
    file object it holds, if any, is closed.  And [members] is the list of
    members a reader finds once the archive has been finalised by
    [ZipFile.close], which class [Zip] leaves to its caller. *)

Module MemFS.

Record fobj := FObj {
  f_path : string;
  f_buffer : string;
  f_closed : bool }.

Record store := Store {
  dirs : gset string;
  files : gmap string string;
  handles : gmap oid fobj;
  (* the archive: closed members in the order written, and the member
     being written, if any *)
  members : list (string * string);
  writing : option (oid * (string * string)) }.

Definition slash : ascii := "/"%char.

(** The part of a path up to and including its last slash. *)
Fixpoint head_of (p : string) : option string :=
  match p with
  | EmptyString => None
  | String c r =>
      match head_of r with
      | Some h => Some (String c h)
      | None => if Ascii.eqb c slash then Some (String c EmptyString) else None
      end
  end.

Fixpoint rstrip_slash (p : string) : string :=
  match p with
  | EmptyString => EmptyString
  | String c r =>
      match rstrip_slash r with
      | EmptyString =>
          if Ascii.eqb c slash then EmptyString else String c EmptyString
      | r' => String c r'
      end
  end.

(** [os.path.dirname] *)
Definition dirname (p : string) : string :=
  match head_of p with
  | None => ""
  | Some h => match rstrip_slash h with
              | EmptyString => h
              | h' => h'
              end
  end.

Fixpoint ancestors (fuel : nat) (p : string) : list string :=
  match fuel with
  | O => []
  | S n =>
      let d := dirname p in
      if (String.eqb d "" || String.eqb d p)%bool then []
      else d :: ancestors n d
  end.

Definition is_dir (st : store) (p : string) : bool :=
  bool_decide (p ∈ dirs st).

Definition is_file (st : store) (p : string) : bool :=
  bool_decide (is_Some (files st !! p)).

(** The directory a new entry goes into exists; a name without a directory
    part goes into the working directory. *)
Definition parent_ok (st : store) (p : string) : bool :=
  (String.eqb (dirname p) "" || is_dir st (dirname p))%bool.

Definition oserror (c : exn_class) (text path : string) : lib_exn :=
  LibExn c (text +:+ ": '" +:+ path +:+ "'").

Fixpoint ends_with_slash (p : string) : bool :=
  match p with
  | EmptyString => false
  | String c r =>
      match r with
      | EmptyString => Ascii.eqb c slash
      | _ => ends_with_slash r
      end
  end.

(** [os.path.basename]: what follows the last slash. *)
Definition basename (p : string) : string :=
  match head_of p with
  | None => p
  | Some h =>
      String.substring (String.length h)
        (String.length p - String.length h) p
  end.

(** The path names a directory whatever the store holds: it ends with a
    slash, or with the component [.] or [..]. *)
Definition names_directory (p : string) : bool :=
  (ends_with_slash p || String.eqb (basename p) "."
   || String.eqb (basename p) "..")%bool.

(** Why a file cannot be created or truncated at [p], if it cannot: the
    path holds a NUL, or is empty, or names a directory, or its directory
    does not exist. *)
Definition open_error (st : store) (p : string) : option lib_exn :=
  if PyBytes.has_nul p then Some (LibExn ValueError "embedded null byte")
  else if String.eqb p "" then
    Some (oserror FileNotFoundError "[Errno 2] No such file or directory" p)
  else if (is_dir st p || names_directory p)%bool then
    Some (oserror IsADirectoryError "[Errno 21] Is a directory" p)
  else if negb (parent_ok st p) then
    Some (oserror FileNotFoundError "[Errno 2] No such file or directory" p)
  else None.


Definition sys_open (st : store) (h : oid) (p mode : string)
    : (lib_exn + unit) * store :=
  if negb (String.eqb mode "wb" || String.eqb mode "w")%bool then
    (inl (LibExn ValueError "mode outside this model"), st)
  else
    match open_error st p with
    | Some e => (inl e, st)
    | None =>
        (inr tt,
         Store (dirs st) (<[p := ""]> (files st))
           (<[h := FObj p "" false]> (handles st)) (members st) (writing st))
    end.

Definition closed_file : lib_exn :=
  LibExn ValueError "I/O operation on closed file.".

Definition sys_write (st : store) (h : oid) (data : string)
    : (lib_exn + Z) * store :=
  match handles st !! h with
  | Some (FObj p buf false) =>
      (inr (PyBytes.len data),
       Store (dirs st) (files st)
         (<[h := FObj p (buf +:+ data) false]> (handles st))
         (members st) (writing st))
  | _ => (inl closed_file, st)
  end.

(** The buffer goes to the end of the file. *)
Definition drain (st : store) (h : oid) (p buf : string) (closed : bool)
    : store :=
  Store (dirs st) (<[p := default "" (files st !! p) +:+ buf]> (files st))
    (<[h := FObj p "" closed]> (handles st)) (members st) (writing st).

Definition sys_flush (st : store) (h : oid) : (lib_exn + unit) * store :=
  match handles st !! h with
  | Some (FObj p buf false) => (inr tt, drain st h p buf false)
  | _ => (inl closed_file, st)
  end.

Definition sys_close (st : store) (h : oid) : (lib_exn + unit) * store :=
  match handles st !! h with
  | Some (FObj p buf false) => (inr tt, drain st h p buf true)
  | _ => (inr tt, st)
  end.

Definition sys_makedirs (st : store) (p : string)
    : (lib_exn + unit) * store :=
  if (is_dir st p || is_file st p)%bool then
    (inl (oserror FileExistsError "[Errno 17] File exists" p), st)
  else if existsb (is_file st) (ancestors (String.length p) p) then
    (inl (oserror OSError "[Errno 20] Not a directory" p), st)
  else
    (inr tt,
     Store (dirs st ∪ {[p]} ∪ list_to_set (ancestors (String.length p) p))
       (files st) (handles st) (members st) (writing st)).

Definition zip_open (st : store) (h : oid) (zi : ZipInfo) (mode : string)
    : (lib_exn + unit) * store :=
  if negb (String.eqb mode "w") then
    (inl (LibExn ValueError "mode outside this model"), st)
  else
    match writing st with
    | Some _ =>
        (inl (LibExn ValueError
                "Can't write to the ZIP file while there is another write handle open on it. Close the first handle before opening another."),
         st)
    | None =>
        (* a reader finds the member under its name up to the first NUL *)
        (inr tt,
         Store (dirs st) (files st) (handles st) (members st)
           (Some (h, (PyBytes.cut_at_nul (filename zi), ""))))
    end.

Definition zip_write (st : store) (h : oid) (data : string)
    : (lib_exn + Z) * store :=
  match writing st with
  | Some (h', (name, sofar)) =>
      if decide (h' = h) then
        (inr (PyBytes.len data),
         Store (dirs st) (files st) (handles st) (members st)
           (Some (h, (name, sofar +:+ data))))
      else (inl closed_file, st)
  | None => (inl closed_file, st)
  end.

Definition zip_close (st : store) (h : oid) : (lib_exn + unit) * store :=
  match writing st with
  | Some (h', member) =>
      if decide (h' = h) then
        (inr tt,
         Store (dirs st) (files st) (handles st) (members st ++ [member])
           None)
      else (inr tt, st)
  | None => (inr tt, st)
  end.

Definition no_network : lib_exn :=
  LibExn SSHException "No network in this environment".

Definition a_moment : datetime := DateTime 2021 3 14 15 9 26 535897.

Definition respond (c : call) (st : store) : (lib_exn + answer c) * store :=
  match c return (lib_exn + answer c) * store with
  | os_path_exists p => (inr (is_dir st p || is_file st p)%bool, st)
  | os_path_isdir p => (inr (is_dir st p), st)
  | os_makedirs p => sys_makedirs st p
  | builtin_open h p mode => sys_open st h p mode
  | file_write h data => sys_write st h data
  | file_flush h => sys_flush st h
  | file_close h => sys_close st h
  | datetime_now => (inr a_moment, st)
  | ZipFile_init z mode compression =>
      (inr tt, Store (dirs st) (files st) (handles st) [] None)
  | ZipFile_open z h zi mode force_zip64 => zip_open st h zi mode
  | zipext_write h data => zip_write st h data
  | zipext_close h => zip_close st h
  | _ => (inl no_network, st)
  end.

Definition env : Env := MkEnv store respond.

(** Reading an entry back: the file at the path, or the archive member of
    the name (the last one written under it, as [ZipFile.read] resolves a
    name). *)
Definition read_file (st : store) (p : string) : option string :=
  files st !! p.






Definition empty : store := Store {["/"]} ∅ ∅ [] None.

Definition boot : World env := MkWorld (env := env) empty 0%nat [] [].

End MemFS.

(** *** A scripted remote host

    Every call returns a plain answer unless [faults] names an exception for
    it; a command's exit status, standard error and standard output are what
    [shell] gives for its text. *)

Module Scripted.

Record script := Script {
  faults : call -> option lib_exn;
  shell : string -> Z * string * string }.

Definition plain (c : call) : answer c :=
  match c return answer c with
  | os_path_exists _ | os_path_isdir _ => true
  | get_transport _ | SFTPClient_from_transport _ _ => true
  | file_write _ data | zipext_write _ data => PyBytes.len data
  | recv_exit_status _ => 0
  | stderr_read _ | stdout_read _ => ""
  | datetime_now => MemFS.a_moment
  | _ => tt
  end.

(** The state: the command each channel was opened for. *)
Definition respond (sc : script) (c : call) (st : gmap oid string)
    : (lib_exn + answer c) * gmap oid string :=
  match faults sc c with
  | Some e => (inl e, st)
  | None =>
      match c return (lib_exn + answer c) * gmap oid string with
      | exec_command _ ch cmd => (inr tt, <[ch := cmd]> st)
      | recv_exit_status ch =>
          (inr (fst (fst (shell sc (default "" (st !! ch))))), st)
      | stderr_read ch =>
          (inr (snd (fst (shell sc (default "" (st !! ch))))), st)
      | stdout_read ch => (inr (snd (shell sc (default "" (st !! ch)))), st)
      | c' => (inr (plain c'), st)
      end
  end.

Definition env (sc : script) : Env := MkEnv (gmap oid string) (respond sc).

Definition boot (sc : script) : World (env sc) :=
  MkWorld (env := env sc) ∅ 0%nat [] [].

Definition no_faults : call -> option lib_exn := fun _ => None.

Definition quiet_shell : string -> Z * string * string :=
  fun _ => (0, "", "").

End Scripted.

(** ** Observing a run *)

(** The events a run added to the trace. *)
Definition new_events {env} (w w' : World env) : list event :=
  drop (length (trace w)) (trace w').

(** The SFTP client a call creates or works on. *)
Definition channel_of (c : call) : option oid :=
  match c with
  | SFTPClient_from_transport s _
  | sftp_stat s _ | sftp_get s _ _ | sftp_put s _ _ | sftp_close s => Some s
  | _ => None
  end.

(** The SFTP client a call works on. *)
Definition channel_used (c : call) : option oid :=
  match c with
  | sftp_stat s _ | sftp_get s _ _ | sftp_put s _ _ | sftp_close s => Some s
  | _ => None
  end.

(** What [from_transport] is given: the transport of the connection, which
    is named by the connection, or [None] when the connection has none. *)
Definition transport_of (c : oid) (t : bool) : option oid :=
  if t then Some c else None.

(** From position [i] on, [evs] holds one access to the property [sftp] of
    a client on connection [c]: the connection is asked for its transport
    and, when that returns, the SFTP client [s] is derived from it; [next]
    is what follows when the derivation returns a client. *)
Definition derives_then (c s : oid) (i : nat) (evs : list event)
    (next : Prop) : Prop :=
  exists o,
    evs !! i = Some (Event (get_transport c) o)
    /\ forall t, o = Returned (VBool t) ->
         exists o',
           evs !! S i
           = Some (Event (SFTPClient_from_transport s (transport_of c t)) o')
           /\ (o' = Returned (VBool true) -> next).

(** The operations of the client that touch the sub-channel. *)
Inductive sftp_op :=
  | op_exists (filepath : string)
  | op_copyFrom (filepath localpath : string)
  | op_copyTo (localpath remotepath : string)
  | op_disconnect.

(** The timeouts of the connection attempts in a trace, in seconds (the unit
    of the [timeout] argument of paramiko's [SSHClient.connect]). *)
Definition connect_timeouts (tr : list event) : list Z :=
  omap (fun ev => match ev_call ev with
                  | SSHClient_connect _ _ _ t => Some t
                  | _ => None
                  end) tr.

(** A generous reading of "approximately 5 seconds": some seconds, less than
    a minute. *)
Definition about_five_seconds (t : Z) : Prop := 0 < t < 60.

(** The records [run] logs before each command. *)
Definition executing (cmd : string) : log_record :=
  LogRecord root_logger DEBUG "Executing command: [%s]" [cmd].

Definition fetching (pidFile : option string) : log_record :=
  LogRecord root_logger DEBUG "PIDfile: [%s]" [fstr pidFile].

Section Observations.

Context (env : Env).
Implicit Types (w : World env) (self : Client).

(** The world with one more log record. *)
Definition logged w (r : log_record) : World env :=
  MkWorld (ext_state w) (next_oid w) (trace w) (logs w ++ [r]).

(** [run] from the point where the command has been executed. *)
Definition run_rest self (cmd : string) (pidFile logFile : option string)
    (ret_ : Z) (err out : string) : M env processInfo :=
  bind (if negb (ret_ =? 0) then
          bind (if truthy logFile then
                  bind (Client__execute env self ("cat " +:+ fstr logFile))
                    (fun r2 => ret (snd r2))
                else ret err)
            (fun err' =>
               raise (sshutilError
                        ("Error during remote command: [" +:+ cmd +:+ "]: ["
                         +:+ err' +:+ "]")))
        else ret tt)
    (fun _ =>
       bind (if truthy pidFile then
               bind (py_log root_logger DEBUG "PIDfile: [%s]" [fstr pidFile])
                 (fun _ =>
                    bind (Client__execute env self ("cat " +:+ fstr pidFile))
                      (fun r3 =>
                         bind (py_log root_logger DEBUG "PID: [%s]" [snd r3])
                           (fun _ => ret (Some (snd r3)))))
             else ret None)
         (fun pid => ret (MkProcessInfo pid logFile err out))).

(** How a transfer ends: [info] is the record logged on entry, [transfer] the
    library call made on the sub-channel, [attr] its method name. *)
Definition copy_outcome w (info : log_record) (transfer : oid -> call)
    (attr : string) (r : result unit * World env) : Prop :=
  match r with
  | (Ok _, w') =>
      (* transferred *)
      (logs w' = logs w ++ [info]
       /\ exists s o, last (trace w') = Some (Event (transfer s) (Returned o)))
      (* or failed with an SSHException, which was logged and dropped *)
      \/ (exists c e,
             last (trace w') = Some (Event c (Threw e))
             /\ issubclass (exn_cls e) SSHException = true
             /\ logs w' =
                  logs w
                  ++ [info;
                      LogRecord root_logger WARNING
                        "Error during file copy: [%s]" [exn_text e]])
  | (Raised x, w') =>
      (* any other failure reaches the caller *)
      isinstance x SSHException = false
      /\ logs w' = logs w ++ [info]
      /\ ((exists c e, last (trace w') = Some (Event c (Threw e)) /\ x = Lib e)
          \/ (x = NoneType_has_no attr
              /\ exists s t,
                   last (trace w') =
                     Some (Event (SFTPClient_from_transport s t)
                             (Returned (VBool false)))))
  end.

(** The world an operation leaves. *)
Definition after self (op : sftp_op) w : World env :=
  match op with
  | op_exists p => snd (Client_exists env self p w)
  | op_copyFrom a b => snd (Client_copyFrom env self a b w)
  | op_copyTo a b => snd (Client_copyTo env self a b w)
  | op_disconnect => snd (Client_disconnect env self w)
  end.

(** Every SFTP client the trace mentions is an object that exists: its
    identity was allocated before.  This holds of the empty trace and is
    preserved by every operation. *)
Definition channels_below w : Prop :=
  Forall (fun ev => match channel_of (ev_call ev) with
                    | Some s => (s < next_oid w)%nat
                    | None => True
                    end) (trace w).

End Observations.

Arguments logged {env}.
Arguments run_rest {env}.
Arguments copy_outcome {env}.
Arguments after {env}.
Arguments channels_below {env}.

(** ** The runs of the examples *)

(** A [Directory] sink for [/backup], asked to open [sda.data]. *)
Definition open_in_backup : M MemFS.env (Directory * (oid * sink)) :=
  bind (Directory_init MemFS.env (Some "/backup")) (fun d =>
  bind (sink_open MemFS.env (DirectorySink d) "sda.data") (fun r =>
  ret (d, r))).

(** An archive sink with an entry opened and written, then flushed. *)
Definition flush_archive_entry : M MemFS.env unit :=
  bind (Zip_init MemFS.env) (fun z =>
  bind (sink_open MemFS.env (ZipSink z) "sda.data") (fun r =>
  bind (sink_write MemFS.env (snd r) "abc") (fun _ =>
  sink_flush MemFS.env (snd r)))).




(** A host where nothing fails and every command is silent. *)
Definition quiet_host : Scripted.script :=
  Scripted.Script Scripted.no_faults Scripted.quiet_shell.

(** The remote file does not exist: the SFTP layer reports [ENOENT], which
    Python raises as [FileNotFoundError], an [IOError]. *)
Definition no_such_remote_file : Scripted.script :=
  Scripted.Script
    (fun c => match c with
              | sftp_get _ _ _ =>
                  Some (LibExn FileNotFoundError "[Errno 2] No such file")
              | _ => None
              end)
    Scripted.quiet_shell.

Definition download_missing_file
    : M (Scripted.env no_such_remote_file) unit :=
  bind (Client_init _ "hv1" "root" DOWNLOAD) (fun self =>
  Client_copy _ self "/var/lib/libvirt/missing.xml" "/tmp/missing.xml").

(** The session is not active: no channel can be opened on its transport. *)
Definition session_not_active : Scripted.script :=
  Scripted.Script
    (fun c => match c with
              | SFTPClient_from_transport _ _ =>
                  Some (LibExn SSHException "SSH session not active")
              | _ => None
              end)
    Scripted.quiet_shell.

Definition exists_on_broken_session
    : M (Scripted.env session_not_active) bool :=
  bind (Client_init _ "hv1" "root" DOWNLOAD) (fun self =>
  Client_exists _ self "/var/lib/libvirt/images/vm1.qcow2").

(** A download, then the disconnect. *)
Definition download_then_disconnect : M (Scripted.env quiet_host) Client :=
  bind (Client_init _ "hv1" "root" DOWNLOAD) (fun self =>
  bind (Client_copy _ self "/var/tmp/vm1.xml" "/tmp/vm1.xml") (fun _ =>
  ret self)).

Definition LF : string := String (ascii_of_nat 10) "".

(** A host where [qemu-nbd] forks and leaves its pid in a file, and where the
    export of a missing image fails and leaves the reason in a log file. *)
Definition nbd_host : Scripted.script :=
  Scripted.Script Scripted.no_faults
    (fun cmd =>
       if String.eqb cmd "qemu-nbd --fork --pid-file=/tmp/nbd.pid vm1.qcow2"
       then (0, "", "")
       else if String.eqb cmd "cat /tmp/nbd.pid"
       then (0, "", " 4711" +:+ LF)
       else if String.eqb cmd "qemu-nbd --fork missing.qcow2"
       then (1, "qemu-nbd: Failed to daemonize" +:+ LF, "")
       else if String.eqb cmd "cat /tmp/nbd.log"
       then (0, "", "Could not open 'missing.qcow2': No such file" +:+ LF)
       else (127, "sh: command not found" +:+ LF, "")).

(** The same host with its messages in Latin-1: the reason for the failed
    export holds the byte 228 (a with diaeresis), which is not UTF-8. *)
Definition latin1_host : Scripted.script :=
  Scripted.Script Scripted.no_faults
    (fun cmd =>
       if String.eqb cmd "qemu-nbd --fork missing.qcow2"
       then (1, "qemu-nbd: Ger" +:+ String (ascii_of_nat 228) "t nicht gefunden"
                +:+ LF, "")
       else (0, "", "")).

(** The same host, on which the session is lost before the log file can be
    fetched. *)
Definition log_unreachable : Scripted.script :=
  Scripted.Script
    (fun c => match c with
              | exec_command _ _ cmd =>
                  if String.eqb cmd "cat /tmp/nbd.log"
                  then Some (LibExn SSHException "SSH session not active")
                  else None
              | _ => None
              end)
    (Scripted.shell nbd_host).

(** A client is constructed on a host and asked to export a missing
    image. *)
Definition export_missing_image (sc : Scripted.script)
    (logFile : option string) : M (Scripted.env sc) processInfo :=
  bind (Client_init _ "hv1" "root" DOWNLOAD) (fun self =>
  Client_run _ self "qemu-nbd --fork missing.qcow2" None logFile).

Definition nbd_client : Client :=
  MkClient None "hv1" "root" bound_copyFrom 0%nat.

(** The world in which [nbd_client] was constructed. *)
Definition nbd_world : World (Scripted.env nbd_host) :=
  snd (Client_init (Scripted.env nbd_host) "hv1" "root" DOWNLOAD
         (Scripted.boot nbd_host)).

(** ** Further observations *)

(** The calls that set up or establish a session. *)
Definition connects (c : call) : bool :=
  match c with
  | SSHClient_init _ | load_system_host_keys _
  | set_missing_host_key_policy _ _ | SSHClient_connect _ _ _ _ => true
  | _ => false
  end.

(** The connection a call is made on, for the calls made on a connection. *)
Definition connection_of (c : call) : option oid :=
  match c with
  | get_transport c' | exec_command c' _ _ | SSHClient_close c' => Some c'
  | SFTPClient_from_transport _ (Some c') => Some c'
  | _ => None
  end.

(** Neither leading nor trailing ASCII whitespace. *)
Definition trimmed (s : string) : Prop :=
  PyBytes.lstrip s = s /\ PyBytes.rstrip s = s.

(** The calls that close a sub-channel or the session. *)
Definition closes (c : call) : bool :=
  match c with
  | sftp_close _ | SSHClient_close _ => true
  | _ => false
  end.

(** [m] adds to the trace only events that satisfy [P], in every world and
    whatever the environment answers. *)
Definition adds {env A} (P : event -> Prop) (m : M env A) : Prop :=
  forall w : World env,
    exists evs, trace (snd (m w)) = trace w ++ evs /\ Forall P evs.

(** An event of a client's session: it sets up no session, and if it is made
    on a connection, that is the client's. *)
Definition on_session (self : Client) (ev : event) : Prop :=
  connects (ev_call ev) = false
  /\ match connection_of (ev_call ev) with
     | Some c => c = connection self
     | None => True
     end.

(** The commands executed in a list of events, in order. *)
Definition commands (evs : list event) : list string :=
  omap (fun ev => match ev_call ev with
                  | exec_command _ _ cmd => Some cmd
                  | _ => None
                  end) evs.

(** A second entry opened before the first one was closed, then a write and
    a close. *)
Definition open_twice (env : Env) (self : Directory) (a b data : string)
    : M env unit :=
  bind (Directory_open env self a Directory_open_default_mode) (fun r1 =>
  bind (Directory_open env (snd r1) b Directory_open_default_mode) (fun r2 =>
  bind (Directory_write env (snd r2) data) (fun _ =>
  Directory_close env (snd r2)))).

(** The file object a call works on. *)
Definition file_used (c : call) : option oid :=
  match c with
  | file_write h _ | file_flush h | file_close h => Some h
  | _ => None
  end.

(** A file [disk.img] written in the working directory. *)
Definition write_disk_image : M MemFS.env (sink * list Z) :=
  write_entry MemFS.env (DirectorySink (MkDirectory None None)) "disk.img"
    ["qcow"].

(** An archive with the member [vm1.xml] written and closed. *)
Definition archive_with_member : M MemFS.env sink :=
  bind (Zip_init MemFS.env) (fun z =>
  bind (write_entry MemFS.env (ZipSink z) "vm1.xml" ["<domain/>"]) (fun r =>
  ret (fst r))).

(** An archive with the member [vm1.xml] opened and not yet closed. *)
Definition archive_with_open_member : M MemFS.env (oid * Zip) :=
  bind (Zip_init MemFS.env) (fun z => Zip_open MemFS.env z "vm1.xml" "w").

(** * Theorems *)

(** Unfolding the monad. *)
Ltac run_monad :=
  unfold bind, ret, raise, try_except, extcall, alloc, py_log in *;
  cbn [fst snd ext_state next_oid trace logs] in *.

Section OutputSink.

Context (env : Env).
Implicit Types (w : World env) (self : Directory).

(** C10. A [Directory] constructed with target [None] makes no call at all:
    the constructor returns the object, the world (trace of calls, objects,
    log, state of the file system) is what it was, and no
    [OutputCreateDirectory] can come out of it. *)
Theorem Directory_init_None_untouched w :
  Directory_init env None w = (Ok (MkDirectory None None), w)
  /\ trace (snd (Directory_init env None w)) = trace w
  /\ forall args,
       fst (Directory_init env None w) <> Raised (OutputCreateDirectory args).
Proof. repeat split; intros; discriminate. Qed.

(** C1, as amended.  [Directory.open(targetFile, mode)] hands the builtin
    [open] the path exactly as given, whatever the sink's target directory
    is; the default mode is ["wb"]; when the builtin returns, the new handle
    is returned and stored in [fileHandle]; when it raises an [OSError] (or
    a subclass), [OutputOpenException] is raised with the path and the
    error's text; any other exception passes through. *)
Theorem Directory_open_as_given w self (targetFile mode : string) :
  let h := next_oid w in
  let c := builtin_open h targetFile mode in
  let r := Directory_open env self targetFile mode w in
  Directory_open_default_mode = "wb"
  /\ match respond env c (ext_state w) with
     | (inr _, _) =>
         fst r = Ok (h, MkDirectory (targetDir self) (Some h))
         /\ trace (snd r) = trace w ++ [Event c (Returned VUnit)]
     | (inl e, _) =>
         fst r =
           (if issubclass (exn_cls e) OSError then
              Raised (OutputOpenException
                        ("Unable to open target file: [" +:+ targetFile
                         +:+ "]: " +:+ exn_text e))
            else Raised (Lib e))
         /\ trace (snd r) = trace w ++ [Event c (Threw e)]
     end.
Proof.
  cbv zeta. split; [reflexivity |].
  unfold Directory_open. run_monad.
  destruct (respond env _ (ext_state w)) as [[e | []] s]; cbn.
  - destruct (issubclass (exn_cls e) OSError); cbn; auto.
  - auto.
Qed.

(** C8, as amended.  Only the [Directory] class has [flush]: it calls
    [flush] on the handle of the open entry, and whatever that raises
    reaches the caller unchanged; on the file model the call moves the bytes
    buffered for the entry to the end of its file.  Class [Zip] defines no
    [flush]: the call fails with [AttributeError] before anything is
    written. *)
Theorem flush_only_on_Directory w :
  (forall dir h,
      sink_flush env (DirectorySink (MkDirectory dir (Some h))) w =
        match respond env (file_flush h) (ext_state w) with
        | (inr _, s) =>
            (Ok tt,
             MkWorld s (next_oid w)
               (trace w ++ [Event (file_flush h) (Returned VUnit)]) (logs w))
        | (inl e, s) =>
            (Raised (Lib e),
             MkWorld s (next_oid w)
               (trace w ++ [Event (file_flush h) (Threw e)]) (logs w))
        end)
  /\ (forall z,
        sink_flush env (ZipSink z) w =
          (Raised (has_no_attribute "Zip" "flush"), w))
  /\ (forall (st : MemFS.store) n tr lg dir h (p buf : string),
        let st0 :=
          MemFS.Store (MemFS.dirs st) (MemFS.files st)
            (<[h := MemFS.FObj p buf false]> (MemFS.handles st))
            (MemFS.members st) (MemFS.writing st) in
        let r :=
          sink_flush MemFS.env (DirectorySink (MkDirectory dir (Some h)))
            (MkWorld (env := MemFS.env) st0 n tr lg) in
        fst r = Ok tt
        /\ MemFS.read_file (ext_state (snd r)) p
           = Some (default "" (MemFS.read_file st p) +:+ buf)
        /\ MemFS.handles (ext_state (snd r)) !! h
           = Some (MemFS.FObj p "" false)).
Proof.
  split; [| split; [reflexivity |]].
  - intros dir h. cbn. run_monad.
    destruct (respond env _ (ext_state w)) as [[e | []] s]; reflexivity.
  - intros st n tr lg dir h p buf. cbv zeta.
    cbn [sink_flush Directory_flush fileHandle]. run_monad.
    cbn [respond MemFS.env MemFS.respond]. unfold MemFS.sys_flush.
    cbn [MemFS.handles]. rewrite lookup_insert_eq.
    cbn [fst snd ext_state]. unfold MemFS.drain, MemFS.read_file.
    cbn [MemFS.files MemFS.handles].
    repeat split; apply lookup_insert_eq.
Qed.

End OutputSink.

(** ** Concrete runs *)

(** C1, the claim as stated fails: a sink constructed for [/backup] that is
    asked to open [sda.data] creates [sda.data] in the working directory;
    nothing named [sda.data] appears under [/backup]. *)
Lemma Directory_open_not_under_targetDir :
  let r := open_in_backup MemFS.boot in
  fst r = Ok (MkDirectory (Some "/backup") None,
              (0%nat, DirectorySink (MkDirectory (Some "/backup") (Some 0%nat))))
  /\ MemFS.is_dir (ext_state (snd r)) "/backup" = true
  /\ MemFS.read_file (ext_state (snd r)) "/backup/sda.data" = None
  /\ MemFS.read_file (ext_state (snd r)) "sda.data" = Some ""
  /\ last (trace (snd r))
     = Some (Event (builtin_open 0%nat "sda.data" "wb") (Returned VUnit)).
Proof. cbv zeta. repeat split; vm_compute; reflexivity. Qed.

(** C8, the claim as stated fails for the archive backend: after an entry has
    been opened and written, [flush()] on a [Zip] sink raises
    [AttributeError]; the last call that reached the archive is the
    [write]. *)
Lemma Zip_sink_has_no_flush :
  let r := flush_archive_entry MemFS.boot in
  fst r = Raised (Lib (LibExn AttributeError
                         "'Zip' object has no attribute 'flush'"))
  /\ last (trace (snd r))
     = Some (Event (zipext_write 1%nat "abc") (Returned (VInt 3))).
Proof. cbv zeta. repeat split; vm_compute; reflexivity. Qed.

(** ** Round trip through a sink entry (in-memory file system and archive) *)

Ltac run_memfs :=
  run_monad;
  cbn [respond MemFS.env MemFS.respond fst snd ext_state next_oid trace logs
         value_of].

Lemma append_assoc (a b c : string) : (a +:+ b) +:+ c = a +:+ (b +:+ c).
Proof.
  induction a as [| x a IH]; [reflexivity |].
  change (String x ((a +:+ b) +:+ c) = String x (a +:+ (b +:+ c))).
  now f_equal.
Qed.

Lemma append_nil_r (a : string) : a +:+ "" = a.
Proof.
  induction a as [| x a IH]; [reflexivity |].
  change (String x (a +:+ "") = String x a). now f_equal.
Qed.

Lemma cut_at_nul_idempotent (s : string) :
  PyBytes.cut_at_nul (PyBytes.cut_at_nul s) = PyBytes.cut_at_nul s.
Proof.
  induction s as [| c s IH]; [reflexivity |].
  cbn. destruct (Ascii.eqb c Ascii.zero) eqn:E; [reflexivity |].
  cbn. rewrite E. now f_equal.
Qed.


Section RoundTrip.

Implicit Types (st : MemFS.store) (w : World MemFS.env).




(** [open] on a [Zip] sink that holds an archive on which no member is being
    written. *)
Lemma Zip_opened_store w z (zs : oid) (name : string) :
  zipStream z = Some zs ->
  MemFS.writing (ext_state w) = None ->
  let h := next_oid w in
  exists tr',
    sink_open MemFS.env (ZipSink z) name w
    = (Ok (h, ZipSink (MkZip (Some zs) (Some h))),
       MkWorld (env := MemFS.env)
         (MemFS.Store (MemFS.dirs (ext_state w)) (MemFS.files (ext_state w))
            (MemFS.handles (ext_state w)) (MemFS.members (ext_state w))
            (Some (h, (PyBytes.cut_at_nul name, ""))))
         (S h) tr' (logs w)).
Proof.
  destruct w as [st n tr lg]. cbn [ext_state next_oid logs]. intros Hz Hw.
  cbv zeta.
  unfold sink_open, Zip_open, Zip_open_default_mode. run_memfs. rewrite Hz.
  run_memfs. unfold MemFS.zip_open.
  cbn [negb String.eqb Ascii.eqb Bool.eqb]. rewrite Hw.
  cbn [fst snd ext_state next_oid trace logs ZipInfo_init with_date_time
         with_compress_type filename].
  rewrite cut_at_nul_idempotent. eexists. reflexivity.
Qed.

Lemma Zip_written_store chunks : forall st n tr lg zs h name sofar,
  MemFS.writing st = Some (h, (name, sofar)) ->
  exists tr',
    write_all MemFS.env (ZipSink (MkZip zs (Some h))) chunks
      (MkWorld (env := MemFS.env) st n tr lg)
    = (Ok (PyBytes.len <$> chunks),
       MkWorld (env := MemFS.env)
         (MemFS.Store (MemFS.dirs st) (MemFS.files st) (MemFS.handles st)
            (MemFS.members st)
            (Some (h, (name, sofar +:+ PyBytes.join chunks)))) n tr' lg).
Proof.
  induction chunks as [| data rest IH]; intros st n tr lg zs h name sofar Hw.
  - exists tr. change (PyBytes.join []) with "". rewrite append_nil_r.
    cbn. rewrite <- Hw. now destruct st.
  - cbn [write_all sink_write Zip_write zipFileStream].
    run_memfs. unfold MemFS.zip_write. rewrite Hw.
    destruct (decide (h = h)) as [_ | Hne]; [| contradiction].
    cbn [fst snd ext_state next_oid trace logs].
    set (st1 := MemFS.Store _ _ _ _ _).
    destruct (IH st1 n (tr ++ [Event (zipext_write h data)
                                 (Returned (VInt (PyBytes.len data)))])
                lg zs h name (sofar +:+ data) eq_refl) as (tr' & Hrun).
    exists tr'. rewrite Hrun. subst st1. cbn.
    change (PyBytes.join (data :: rest)) with (data +:+ PyBytes.join rest).
    now rewrite append_assoc.
Qed.

(** The store an entry cycle on a [Zip] sink leaves. *)
Lemma Zip_cycle_store (z : Zip) (zs : oid) (name : string)
    (chunks : list string) w :
  zipStream z = Some zs ->
  MemFS.writing (ext_state w) = None ->
  let h := next_oid w in
  exists tr',
    write_entry MemFS.env (ZipSink z) name chunks w
    = (Ok (ZipSink (MkZip (Some zs) (Some h)), PyBytes.len <$> chunks),
       MkWorld (env := MemFS.env)
         (MemFS.Store (MemFS.dirs (ext_state w)) (MemFS.files (ext_state w))
            (MemFS.handles (ext_state w))
            (MemFS.members (ext_state w)
             ++ [(PyBytes.cut_at_nul name, PyBytes.join chunks)])
            None) (S h) tr' (logs w)).
Proof.
  intros Hz Hw. cbv zeta.
  destruct (Zip_opened_store w z zs name Hz Hw) as (tr1 & Hopen).
  unfold write_entry, bind at 1. rewrite Hopen. cbn [fst snd].
  match goal with
  | |- context [MkWorld ?st ?n tr1 ?lg] =>
      destruct (Zip_written_store chunks st n tr1 lg (Some zs) (next_oid w)
                  (PyBytes.cut_at_nul name) "" eq_refl) as (tr2 & Hrun)
  end.
  cbn [MemFS.dirs MemFS.files MemFS.handles MemFS.members] in Hrun.
  unfold bind at 1. rewrite Hrun.
  cbn [sink_close Zip_close zipFileStream]. run_memfs.
  unfold MemFS.zip_close. cbn [MemFS.writing].
  destruct (decide (next_oid w = next_oid w)) as [_ | Hne];
    [| contradiction].
  cbn. eexists. reflexivity.
Qed.



End RoundTrip.



(** ** The remote execution client *)

Lemma new_events_app {env} (w w' : World env) (evs : list event) :
  trace w' = trace w ++ evs -> new_events w w' = evs.
Proof. intros E. unfold new_events. rewrite E. apply drop_app_length. Qed.

(** Case analysis on the next answer of the environment, keeping the class
    test of a handler as a case of its own. *)
Ltac next_answer :=
  match goal with
  | H : issubclass (exn_cls ?e) ?c = _ |- context [issubclass (exn_cls ?e) ?c] =>
      rewrite H;
      cbn [fst snd ext_state next_oid trace logs List.find isinstance exn_cls
             from_option]
  | |- context [isinstance (NoneType_has_no ?attr) ?c] =>
      let b := eval vm_compute in (isinstance (NoneType_has_no attr) c) in
      change (isinstance (NoneType_has_no attr) c) with b;
      cbn [fst snd ext_state next_oid trace logs List.find isinstance exn_cls
             from_option]
  | |- context [respond ?env ?c ?s] =>
      let e := fresh "e" in
      let a := fresh "a" in
      let s' := fresh "s" in
      destruct (respond env c s) as [[e | a] s'];
      cbn [fst snd ext_state next_oid trace logs List.find isinstance exn_cls
             from_option]
  | |- context [issubclass (exn_cls ?e) ?c] =>
      let H := fresh "Hcls" in
      destruct (issubclass (exn_cls e) c) eqn:H;
      cbn [fst snd ext_state next_oid trace logs List.find isinstance exn_cls
             from_option]
  | |- context [if ?b then _ else _] =>
      is_var b; destruct b;
      cbn [fst snd ext_state next_oid trace logs List.find isinstance exn_cls
             from_option]
  end.

Section RemoteClient.

Context (env : Env).
Implicit Types (w : World env) (self : Client).

Ltac end_of_trace :=
  repeat first
    [ rewrite last_snoc
    | progress cbn [value_of exn_str]
    | reflexivity
    | match goal with
      | |- (_ ++ _) ++ _ = _ => rewrite <- !app_assoc; reflexivity
      end
    | eassumption
    | split
    | eexists ].

(** C3, as amended.  [copyFrom] and [copyTo] return [None] whether or not the
    file was transferred.  A failure raised as [SSHException] (or a subclass),
    while the sub-channel is derived or during the transfer, is logged as a
    warning on the root logger and the call returns normally.  Every other
    exception, an [IOError] of the SFTP layer among them, is not caught: it
    reaches the caller, and no warning is logged. *)
Theorem copy_drops_SSHException_only w self (a b : string) :
  copy_outcome w
    (LogRecord sshutil_logger INFO "Downloading file [%s] to [%s]" [a; b])
    (fun s => sftp_get s a b) "get" (Client_copyFrom env self a b w)
  /\ copy_outcome w
       (LogRecord sshutil_logger INFO "Uploading file [%s] to [%s]" [a; b])
       (fun s => sftp_put s a b) "put" (Client_copyTo env self a b w).
Proof.
  split.
  - unfold Client_copyFrom, Client_sftp, copy_outcome. run_monad.
    repeat next_answer;
      first [ left; split; [reflexivity | end_of_trace]; fail
            | right; do 2 eexists; end_of_trace; fail
            | split; [first [assumption | reflexivity] |];
              split; [reflexivity |];
              first [ left; do 2 eexists; end_of_trace; fail
                    | right; end_of_trace; fail ] ].
  - unfold Client_copyTo, Client_sftp, copy_outcome. run_monad.
    repeat next_answer;
      first [ left; split; [reflexivity | end_of_trace]; fail
            | right; do 2 eexists; end_of_trace; fail
            | split; [first [assumption | reflexivity] |];
              split; [reflexivity |];
              first [ left; do 2 eexists; end_of_trace; fail
                    | right; end_of_trace; fail ] ].
Qed.

(** C6, as amended.  [exists] returns [True] exactly when the sub-channel was
    derived and [stat] on it returned.  It returns [False] when deriving the
    sub-channel or [stat] raised an [IOError] (an [OSError], or a subclass).
    Any other exception, such as the [SSHException] of a session that is not
    active, is not caught and reaches the caller. *)
Theorem exists_collapses_IOError_only w self (filepath : string) :
  match Client_exists env self filepath w with
  | (Ok true, w') =>
      exists s,
        last (trace w') = Some (Event (sftp_stat s filepath) (Returned VUnit))
  | (Ok false, w') =>
      exists c e,
        last (trace w') = Some (Event c (Threw e))
        /\ issubclass (exn_cls e) IOError = true
  | (Raised x, w') =>
      isinstance x IOError = false
      /\ ((exists c e, last (trace w') = Some (Event c (Threw e)) /\ x = Lib e)
          \/ (x = NoneType_has_no "stat"
              /\ exists s t,
                   last (trace w') =
                     Some (Event (SFTPClient_from_transport s t)
                             (Returned (VBool false)))))
  end.
Proof.
  unfold Client_exists, Client_sftp. run_monad.
  repeat next_answer;
    first [ eexists; end_of_trace; fail
          | do 2 eexists; end_of_trace; fail
          | split; [first [assumption | reflexivity] |];
            first [ left; do 2 eexists; end_of_trace; fail
                  | right; end_of_trace; fail ] ].
Qed.

End RemoteClient.

Section Construction.

Context (env : Env).
Implicit Types (w : World env).

Lemma new_events_1 w w' a : trace w' = trace w ++ [a] -> new_events w w' = [a].
Proof. apply new_events_app. Qed.

Lemma new_events_2 w w' a b :
  trace w' = (trace w ++ [a]) ++ [b] -> new_events w w' = [a; b].
Proof. intros E. apply new_events_app. now rewrite E, <- app_assoc. Qed.

Lemma new_events_3 w w' a b c :
  trace w' = ((trace w ++ [a]) ++ [b]) ++ [c] -> new_events w w' = [a; b; c].
Proof. intros E. apply new_events_app. now rewrite E, <- !app_assoc. Qed.

Lemma new_events_4 w w' a b c d :
  trace w' = (((trace w ++ [a]) ++ [b]) ++ [c]) ++ [d] ->
  new_events w w' = [a; b; c; d].
Proof. intros E. apply new_events_app. now rewrite E, <- !app_assoc. Qed.

(** C7, as amended.  Constructing a client attempts the connection with
    the timeout 5000, a constant of [connect] that no argument of the
    constructor reaches: whatever the host, the user and the mode, every
    attempt in the run carries it, and a construction that returns has made
    exactly one attempt, as its last call.  (The calls of a construction are
    an initial part of: create the client object, load the system host
    keys, set the auto-add policy, connect to the given host as the given
    user.  They follow one another as long as they return, so the attempt
    is made as soon as the three before it have returned; an exception of
    any of the four is re-raised as [sshutilError], unless it is outside
    [Exception].) *)
Theorem connect_timeout_constant w (host user : string) (mode : Mode) :
  let r := Client_init env host user mode w in
  let new := new_events w (snd r) in
  let c := next_oid w in
  Forall (fun ev => match ev_call ev with
                    | SSHClient_connect _ h u t =>
                        t = 5000 /\ h = host /\ u = user
                    | _ => True
                    end) new
  /\ match fst r with
     | Ok self =>
         last (trace (snd r))
         = Some (Event (SSHClient_connect (connection self) host user 5000)
                   (Returned VUnit))
         /\ connect_timeouts new = [5000]
     | Raised x =>
         (exists e, last (trace (snd r)) = Some (Event e.1 (Threw e.2)))
         /\ ((exists msg, x = sshutilError msg)
             \/ (exists e, x = Lib e
                           /\ issubclass (exn_cls e) PyException = false))
     end
  /\ new <> []
  /\ ev_call <$> new
     = take (length new)
         [SSHClient_init c; load_system_host_keys c;
          set_missing_host_key_policy c AutoAddPolicy;
          SSHClient_connect c host user 5000]
  /\ Forall (fun ev => exists v, ev_out ev = Returned v)
       (take (length new - 1)%nat new).
Proof.
  cbv zeta. unfold Client_init, Client_connect. run_monad.
  repeat next_answer.
  all: cbn [fst snd ext_state next_oid trace logs List.find isinstance
              exn_cls connection].
  all: split;
    [ first [ erewrite new_events_1 by reflexivity
            | erewrite new_events_2 by reflexivity
            | erewrite new_events_3 by reflexivity
            | erewrite new_events_4 by reflexivity ];
      repeat constructor
    | ].
  all: split;
    [ first
        [ split; [rewrite last_snoc; reflexivity |];
          erewrite new_events_4 by reflexivity; reflexivity
        | split;
          [ eexists (_, _); rewrite last_snoc; reflexivity
          | first [ left; eexists; reflexivity
                  | right; eexists; split; [reflexivity | assumption] ] ] ]
    | ].
  all: first [ erewrite new_events_1 by reflexivity
             | erewrite new_events_2 by reflexivity
             | erewrite new_events_3 by reflexivity
             | erewrite new_events_4 by reflexivity ].
  all: split; [discriminate |]; split; [reflexivity |].
  all: cbn; repeat constructor; eexists; reflexivity.
Qed.

End Construction.

(** *** Concrete runs against a scripted host *)

(** C3, the claim as stated fails: downloading a remote file that does not
    exist raises; the failure is not logged as a warning. *)
Lemma copyFrom_raises_IOError :
  let r := download_missing_file (Scripted.boot no_such_remote_file) in
  fst r = Raised (Lib (LibExn FileNotFoundError "[Errno 2] No such file"))
  /\ level <$> logs (snd r) = [INFO; INFO].
Proof. cbv zeta. split; vm_compute; reflexivity. Qed.

(** C6, the claim as stated fails: on a session that is not active [exists]
    raises [SSHException] instead of returning [False]. *)
Lemma exists_raises_on_broken_session :
  fst (exists_on_broken_session (Scripted.boot session_not_active))
  = Raised (Lib (LibExn SSHException "SSH session not active")).
Proof. vm_compute. reflexivity. Qed.

(** C7, the claim as stated fails: the one connection attempt of a
    construction is made with a timeout of 5000 seconds. *)
Lemma connect_timeout_not_about_five_seconds :
  let r := Client_init (Scripted.env quiet_host) "hv1" "root" DOWNLOAD
             (Scripted.boot quiet_host) in
  connect_timeouts (trace (snd r)) = [5000]
  /\ ~ Forall about_five_seconds (connect_timeouts (trace (snd r))).
Proof.
  cbv zeta. split; [vm_compute; reflexivity |].
  intros H. apply Forall_inv in H. unfold about_five_seconds in H. lia.
Qed.

(** *** The file-transfer sub-channel *)

Section SubChannel.

Context (env : Env).
Implicit Types (w : World env) (self : Client).

Lemma below_not_seen w (s : oid) :
  channels_below w -> (next_oid w <= s)%nat ->
  Forall (fun old => channel_of (ev_call old) <> Some s) (trace w).
Proof.
  unfold channels_below. intros Hb Hs.
  eapply Forall_impl; [exact Hb |].
  intros ev. cbn beta.
  destruct (channel_of (ev_call ev)) as [s' |]; [| discriminate].
  intros Hev [= ->]. unfold oid in *. lia.
Qed.

Lemma below_extend w w' (evs : list event) :
  channels_below w ->
  trace w' = trace w ++ evs ->
  (next_oid w <= next_oid w')%nat ->
  Forall (fun ev => match channel_of (ev_call ev) with
                    | Some s => (s < next_oid w')%nat
                    | None => True
                    end) evs ->
  channels_below w'.
Proof.
  unfold channels_below. intros Hb -> Hle Hnew.
  apply Forall_app. split; [| exact Hnew].
  eapply Forall_impl; [exact Hb |].
  intros ev. cbn beta. destruct (channel_of (ev_call ev)); [| trivial].
  unfold oid in *. lia.
Qed.

Ltac flatten_trace :=
  cbn [fst snd ext_state next_oid trace logs]; rewrite <- ?app_assoc;
  cbn [app].

Ltac channel_goal Hb :=
  match goal with
  | |- _ /\ _ => split; channel_goal Hb
  | |- exists _, _ => eexists; channel_goal Hb
  | |- Forall _ (trace _) => apply (below_not_seen _ _ Hb); cbn; unfold oid in *; lia
  | |- Forall _ [] => constructor
  | |- Forall _ (_ :: _) => constructor; [cbn | ]; channel_goal Hb
  | |- _ ∈ _ => cbn [value_of]; repeat constructor
  | |- True => exact I
  | |- (_ < _)%nat => cbn; unfold oid in *; lia
  | |- _ = _ => reflexivity
  end.

Ltac derives_goal :=
  repeat match goal with
         | |- derives_then _ _ _ _ _ => unfold derives_then
         | |- exists _, _ => eexists
         | |- _ /\ _ => split
         | |- _ !! _ = Some _ => reflexivity
         | |- forall _, _ = _ -> _ =>
             let H := fresh in
             intros ? H; first [discriminate H | injection H as <-]
         | |- _ = _ -> _ =>
             let H := fresh in
             intros H; first [discriminate H | clear H]
         end.

(** C9.  Each of [exists], [copyFrom], [copyTo] and [disconnect] begins by
    asking the connection for its transport and, when that returns, derives
    a new SFTP client from it; when the derivation returns a client, the
    operation works on that client: [stat], [get] or [put] is called on it.
    [disconnect] does this twice: the first client is only tested, a second
    one is derived and that one is closed.  Every SFTP client an operation
    works on was derived during that same call and is an object that no
    earlier call created or used: in particular the client that
    [disconnect] closes is not one an earlier transfer used.  (A [Client]
    has no attribute that could hold an SFTP client.) *)
Theorem sftp_channel_per_call w self (op : sftp_op) :
  channels_below w ->
  let w' := after self op w in
  let new := new_events w w' in
  let c := connection self in
  let s := next_oid w in
  derives_then c s 0 new
    match op with
    | op_exists p => exists o, new !! 2%nat = Some (Event (sftp_stat s p) o)
    | op_copyFrom a b =>
        exists o, new !! 2%nat = Some (Event (sftp_get s a b) o)
    | op_copyTo a b =>
        exists o, new !! 2%nat = Some (Event (sftp_put s a b) o)
    | op_disconnect =>
        derives_then c (S s) 2 new
          (exists o, new !! 4%nat = Some (Event (sftp_close (S s)) o))
    end
  /\ (op = op_disconnect ->
      Forall (fun ev => channel_used (ev_call ev) <> Some s) new)
  /\ Forall (fun ev =>
       match channel_used (ev_call ev) with
       | Some s' =>
           (exists t,
               Event (SFTPClient_from_transport s' t) (Returned (VBool true))
               ∈ new)
           /\ Forall (fun old => channel_of (ev_call old) <> Some s')
                (trace w)
       | None => True
       end) new
  /\ channels_below w'.
Proof.
  intros Hb. cbv zeta.
  destruct op as [p | a b | a b |]; unfold after;
    unfold Client_exists, Client_copyFrom, Client_copyTo, Client_disconnect,
      Client_sftp, object_truth;
    run_monad; cbn [from_option];
    repeat next_answer.
  all: unfold new_events; flatten_trace; rewrite !drop_app_length.
  all: split; [derives_goal |].
  all: split;
    [ first [ discriminate
            | intros _; repeat constructor; cbn; intros [= E]; lia ] |].
  all: split;
    [ channel_goal Hb
    | eapply (below_extend w _ _ Hb);
      [ flatten_trace; reflexivity | cbn; unfold oid in *; lia | channel_goal Hb ] ].
Qed.

End SubChannel.

(** The disconnect that follows a download, on a host where nothing fails:
    the clients 2 and 3 are derived, and 3 is closed. *)
Lemma sftp_channel_per_call_witness :
  let w := snd (download_then_disconnect (Scripted.boot quiet_host)) in
  let self := MkClient None "hv1" "root" bound_copyFrom 0%nat in
  let new := new_events w (after self op_disconnect w) in
  derives_then 0%nat 2%nat 0 new
    (derives_then 0%nat 3%nat 2 new
       (exists o, new !! 4%nat = Some (Event (sftp_close 3%nat) o)))
  /\ (op_disconnect = op_disconnect ->
      Forall (fun ev => channel_used (ev_call ev) <> Some 2%nat) new)
  /\ Forall (fun ev =>
       match channel_used (ev_call ev) with
       | Some s' =>
           (exists t,
               Event (SFTPClient_from_transport s' t) (Returned (VBool true))
               ∈ new)
           /\ Forall (fun old => channel_of (ev_call old) <> Some s')
                (trace w)
       | None => True
       end) new
  /\ channels_below (after self op_disconnect w).
Proof.
  cbv zeta.
  apply (sftp_channel_per_call (Scripted.env quiet_host)
           (snd (download_then_disconnect (Scripted.boot quiet_host)))
           (MkClient None "hv1" "root" bound_copyFrom 0%nat) op_disconnect).
  unfold channels_below. vm_compute.
  repeat constructor.
Defined.

(** The run, spelled out: the transfer worked on the SFTP client 1, the
    disconnect derived the clients 2 and 3 and closed 3. *)
Example download_then_disconnect_channels :
  let w := snd (download_then_disconnect (Scripted.boot quiet_host)) in
  omap (fun ev => channel_used (ev_call ev)) (trace w) = [1%nat]
  /\ omap (fun ev => channel_of (ev_call ev))
       (new_events w
          (after (MkClient None "hv1" "root" bound_copyFrom 0%nat)
             op_disconnect w))
     = [2%nat; 3%nat; 3%nat].
Proof. cbv zeta. split; vm_compute; reflexivity. Qed.

(** *** Remote commands *)

Lemma as_pair {A B} (x : A * B) (a : A) : fst x = a -> x = (a, snd x).
Proof. destruct x. cbn. now intros ->. Qed.

Section RemoteCommand.

Context (env : Env).
Implicit Types (w : World env) (self : Client).

(** A command execution that returns has run the four library calls on a
    channel of its own; what it returns as standard error and standard
    output are the bytes read, stripped of surrounding whitespace. *)
Lemma execute_returns w self (cmd : string) ret_ err out w1 :
  Client__execute env self cmd w = (Ok (ret_, err, out), w1) ->
  exists raw_err raw_out,
    err = PyBytes.strip raw_err /\ out = PyBytes.strip raw_out
    /\ trace w1 =
         trace w
         ++ [Event (exec_command (connection self) (next_oid w) cmd)
               (Returned VUnit);
             Event (recv_exit_status (next_oid w)) (Returned (VInt ret_));
             Event (stderr_read (next_oid w)) (Returned (VBytes raw_err));
             Event (stdout_read (next_oid w)) (Returned (VBytes raw_out))]
    /\ logs w1 = logs w.
Proof.
  unfold Client__execute, decode. run_monad.
  destruct (respond env _ (ext_state w)) as [[e1 | []] s1];
    [intros [=] |]. cbn [fst snd ext_state next_oid trace logs].
  destruct (respond env (recv_exit_status _) s1) as [[e2 | z] s2];
    [intros [=] |]. cbn [fst snd ext_state next_oid trace logs].
  destruct (respond env (stderr_read _) s2) as [[e3 | raw_err] s3];
    [intros [=] |]. cbn [fst snd ext_state next_oid trace logs].
  destruct (PyBytes.valid_utf8 (PyBytes.strip raw_err)); [| intros [=]].
  cbn [fst snd ext_state next_oid trace logs].
  destruct (respond env (stdout_read _) s3) as [[e4 | raw_out] s4];
    [intros [=] |]. cbn [fst snd ext_state next_oid trace logs].
  destruct (PyBytes.valid_utf8 (PyBytes.strip raw_out)); [| intros [=]].
  intros [= <- <- <- <-]. exists raw_err, raw_out.
  cbn [trace logs value_of]. rewrite <- !app_assoc. repeat split.
Qed.

(** [_execute] raises nothing of its own: an exception out of it is one the
    runtime or the library raised. *)
Lemma execute_raises_lib w self (cmd : string) x :
  fst (Client__execute env self cmd w) = Raised x -> exists e, x = Lib e.
Proof.
  unfold Client__execute, decode. run_monad.
  destruct (respond env _ (ext_state w)) as [[e1 | []] s1];
    cbn [fst snd ext_state next_oid trace logs]; [intros [= <-]; eauto |].
  destruct (respond env (recv_exit_status _) s1) as [[e2 | z] s2];
    cbn [fst snd ext_state next_oid trace logs]; [intros [= <-]; eauto |].
  destruct (respond env (stderr_read _) s2) as [[e3 | raw_err] s3];
    cbn [fst snd ext_state next_oid trace logs]; [intros [= <-]; eauto |].
  destruct (PyBytes.valid_utf8 (PyBytes.strip raw_err));
    cbn [fst snd ext_state next_oid trace logs]; [| intros [= <-]; eauto].
  destruct (respond env (stdout_read _) s3) as [[e4 | raw_out] s4];
    cbn [fst snd ext_state next_oid trace logs]; [intros [= <-]; eauto |].
  destruct (PyBytes.valid_utf8 (PyBytes.strip raw_out));
    cbn [fst snd ext_state next_oid trace logs];
    [intros [=] | intros [= <-]; eauto].
Qed.

Lemma run_after_first w self cmd pidFile logFile ret_ err out w1 :
  Client__execute env self cmd (logged w (executing cmd))
  = (Ok (ret_, err, out), w1) ->
  Client_run env self cmd pidFile logFile w
  = run_rest self cmd pidFile logFile ret_ err out w1.
Proof.
  intros Hfirst. unfold Client_run. unfold bind at 1, py_log at 1.
  fold (executing cmd). fold (logged w (executing cmd)).
  unfold bind at 1. rewrite Hfirst. reflexivity.
Qed.

(** C4, as amended.  [run] raises [sshutilError] only after the command
    returned a non-zero exit status, and it does raise it then provided the
    executions involved return: that of the command, whose standard error
    and output are read and decoded, and, when a log file was given, that of
    a second command [cat <logFile>].  The error carries the text of the
    command and the standard error of the command or, when a log file was
    given, what the second command wrote on standard output (the stripped
    contents of the file) in its place.  When one of the two executions
    raises (an exception of the library, or [UnicodeDecodeError]), that
    exception reaches the caller in the place of [sshutilError], whatever
    the exit status was.  With exit status zero no [sshutilError] is
    raised. *)
Theorem run_raises_on_nonzero w self (cmd : string)
    (pidFile logFile : option string) :
  let first := Client__execute env self cmd (logged w (executing cmd)) in
  let second :=
    Client__execute env self ("cat " +:+ fstr logFile) (snd first) in
  let r := Client_run env self cmd pidFile logFile w in
  match fst first with
  | Raised x => r = (Raised x, snd first) /\ exists e, x = Lib e
  | Ok (ret_, err, out) =>
      if ret_ =? 0 then forall msg, fst r <> Raised (sshutilError msg)
      else if truthy logFile then
        match fst second with
        | Ok (_, _, o2) =>
            r = (Raised (sshutilError
                           ("Error during remote command: [" +:+ cmd
                            +:+ "]: [" +:+ o2 +:+ "]")), snd second)
            /\ exists raw,
                 o2 = PyBytes.strip raw
                 /\ last (trace (snd second))
                    = Some (Event (stdout_read (next_oid (snd first)))
                              (Returned (VBytes raw)))
        | Raised x => r = (Raised x, snd second) /\ exists e, x = Lib e
        end
      else
        r = (Raised (sshutilError
                       ("Error during remote command: [" +:+ cmd +:+ "]: ["
                        +:+ err +:+ "]")), snd first)
  end
  /\ ((exists msg, fst r = Raised (sshutilError msg))
      <-> exists ret_ err out,
            fst first = Ok (ret_, err, out) /\ ret_ <> 0
            /\ (truthy logFile = true -> exists v, fst second = Ok v)).
Proof.
  cbv zeta.
  destruct (Client__execute env self cmd (logged w (executing cmd)))
    as [[[[ret_ err] out] | x] w1] eqn:Hfirst; cbn [fst snd].
  - rewrite (run_after_first _ _ _ _ _ _ _ _ _ Hfirst).
    assert (Hzero : ret_ = 0 ->
              forall msg,
                fst (run_rest self cmd pidFile logFile ret_ err out w1)
                <> Raised (sshutilError msg)).
    { intros -> msg. unfold run_rest. cbn [Z.eqb negb].
      destruct (truthy pidFile); unfold bind, ret, py_log.
      - cbn [ext_state next_oid trace logs].
        match goal with
        | |- context [Client__execute env self ?c ?w0] =>
            pose proof (execute_raises_lib w0 self c) as Hlib;
            destruct (Client__execute env self c w0)
              as [[[[r3 e3] o3] | x] w3]
        end.
        + cbn. discriminate.
        + cbn. cbn in Hlib. destruct (Hlib x eq_refl) as [e ->].
          discriminate.
      - cbn. discriminate. }
    destruct (ret_ =? 0) eqn:E'.
    + apply Z.eqb_eq in E'. split; [exact (Hzero E') |]. split.
      * intros [msg Hmsg]. exfalso. exact (Hzero E' msg Hmsg).
      * intros (r0 & e0 & o0 & [= <- <- <-] & Hne & _). contradiction.
    + clear Hzero. pose proof (proj1 (Z.eqb_neq _ _) E') as E.
      destruct (truthy logFile) eqn:Hlog.
      * pose proof (execute_raises_lib w1 self ("cat " +:+ fstr logFile))
          as Hlib.
        destruct (Client__execute env self ("cat " +:+ fstr logFile) w1)
          as [[[[r2 e2] o2] | x] w2] eqn:Hsecond; cbn [fst snd] in *.
        -- assert (Hrun :
             run_rest self cmd pidFile logFile ret_ err out w1
             = (Raised (sshutilError
                          ("Error during remote command: [" +:+ cmd
                           +:+ "]: [" +:+ o2 +:+ "]")), w2)).
           { unfold run_rest. rewrite E', Hlog. cbn [negb].
             unfold bind at 1 2 3. rewrite Hsecond. reflexivity. }
           rewrite Hrun. cbn [fst snd].
           split; [split; [reflexivity |] |].
           ++ destruct (execute_returns _ _ _ _ _ _ _ Hsecond)
                as (raw_err & raw_out & _ & -> & Htr & _).
              exists raw_out. split; [reflexivity |]. rewrite Htr.
              change (?l ++ [?a; ?b; ?c; ?d]) with (l ++ [a; b; c] ++ [d]).
              rewrite app_assoc. apply last_snoc.
           ++ split; [| intros _; eexists; reflexivity].
              intros _. exists ret_, err, out.
              repeat split; [assumption |]. intros _. eexists. reflexivity.
        -- destruct (Hlib x eq_refl) as [e ->].
           assert (Hrun :
             run_rest self cmd pidFile logFile ret_ err out w1
             = (Raised (Lib e), w2)).
           { unfold run_rest. rewrite E', Hlog. cbn [negb].
             unfold bind at 1 2 3. rewrite Hsecond. reflexivity. }
           rewrite Hrun. cbn [fst snd].
           split; [split; [reflexivity | eexists; reflexivity] |].
           split; [intros [msg [=]] |].
           intros (r0 & e0 & o0 & _ & _ & Hret).
           destruct (Hret eq_refl) as [v [=]].
      * assert (Hrun :
          run_rest self cmd pidFile logFile ret_ err out w1
          = (Raised (sshutilError
                       ("Error during remote command: [" +:+ cmd
                        +:+ "]: [" +:+ err +:+ "]")), w1)).
        { unfold run_rest. rewrite E', Hlog. reflexivity. }
        rewrite Hrun. cbn [fst snd].
        split; [reflexivity |].
        split; [| intros _; eexists; reflexivity].
        intros _. exists ret_, err, out.
        repeat split; [assumption |]. intros [=].
  - pose proof (execute_raises_lib (logged w (executing cmd)) self cmd x)
      as Hlib.
    rewrite Hfirst in Hlib. destruct (Hlib eq_refl) as [e ->].
    assert (Hrun : Client_run env self cmd pidFile logFile w
                   = (Raised (Lib e), w1)).
    { unfold Client_run. unfold bind at 1, py_log at 1.
      fold (executing cmd). fold (logged w (executing cmd)).
      unfold bind at 1. rewrite Hfirst. reflexivity. }
    rewrite Hrun. cbn [fst].
    split; [split; [reflexivity | eexists; reflexivity] |].
    split; [intros [msg [=]] |].
    intros (r0 & e0 & o0 & [=] & _).
Qed.

(** C5.  Let the execution of the command return the exit status zero.
    Without a pid file the result's [pid] is [None].  With one, a second
    command [cat <pidFile>] is executed and, once it returns, [pid] is what
    it wrote on standard output, stripped of surrounding whitespace: the
    trimmed contents of the file.  The other fields are the log file as
    given and the stripped standard error and output of the command. *)
Theorem run_returns_pid w self (cmd : string)
    (pidFile logFile : option string) (err out : string) :
  let first := Client__execute env self cmd (logged w (executing cmd)) in
  fst first = Ok (0, err, out) ->
  let r := Client_run env self cmd pidFile logFile w in
  (truthy pidFile = false ->
   r = (Ok (MkProcessInfo None logFile err out), snd first))
  /\ (pidFile = None -> fst r = Ok (MkProcessInfo None logFile err out))
  /\ (truthy pidFile = true ->
      let second :=
        Client__execute env self ("cat " +:+ fstr pidFile)
          (logged (snd first) (fetching pidFile)) in
      forall r2 e2 o2,
        fst second = Ok (r2, e2, o2) ->
        fst r = Ok (MkProcessInfo (Some o2) logFile err out)
        /\ exists raw,
             o2 = PyBytes.strip raw
             /\ last (trace (snd r))
                = Some (Event (stdout_read (next_oid (snd first)))
                          (Returned (VBytes raw)))
             /\ Event (exec_command (connection self) (next_oid (snd first))
                         ("cat " +:+ fstr pidFile)) (Returned VUnit)
                ∈ trace (snd r)).
Proof.
  cbv zeta.
  destruct (Client__execute env self cmd (logged w (executing cmd)))
    as [r1 w1] eqn:Hfirst.
  cbn [fst snd]. intros ->.
  rewrite (run_after_first _ _ _ _ _ _ _ _ _ Hfirst). unfold run_rest.
  cbn [Z.eqb negb]. unfold bind at 1, ret at 1.
  split; [| split].
  - intros ->. reflexivity.
  - intros ->. reflexivity.
  - intros Hpid r2 e2 o2. rewrite Hpid. unfold bind, ret, py_log.
    cbn [ext_state next_oid trace logs].
    change (MkWorld (ext_state w1) (next_oid w1) (trace w1)
              (logs w1 ++ [LogRecord root_logger DEBUG "PIDfile: [%s]"
                             [fstr pidFile]]))
      with (logged w1 (fetching pidFile)).
    destruct (Client__execute env self ("cat " +:+ fstr pidFile)
                (logged w1 (fetching pidFile))) as [r w2] eqn:Hsecond.
    cbn [fst snd]. intros ->.
    destruct (execute_returns _ _ _ _ _ _ _ Hsecond)
      as (raw_err & raw_out & _ & -> & Htr & _).
    cbn [fst snd logged ext_state next_oid trace logs] in *.
    split; [reflexivity |].
    exists raw_out. split; [reflexivity |]. rewrite Htr. split.
    + change (?l ++ [?a; ?b; ?c; ?d]) with (l ++ [a; b; c] ++ [d]).
      rewrite app_assoc. apply last_snoc.
    + apply elem_of_app. right. constructor.
Qed.

End RemoteCommand.

(** *** Concrete runs of remote commands *)

Example nbd_client_constructed :
  fst (Client_init (Scripted.env nbd_host) "hv1" "root" DOWNLOAD
         (Scripted.boot nbd_host)) = Ok nbd_client.
Proof. vm_compute. reflexivity. Qed.

(** The export of a missing image fails with status 1: the error carries
    the contents of the log file, not what the command wrote on standard
    error. *)
Example run_reports_log_file :
  fst (Client_run (Scripted.env nbd_host) nbd_client
         "qemu-nbd --fork missing.qcow2" None (Some "/tmp/nbd.log") nbd_world)
  = Raised (sshutilError
              "Error during remote command: [qemu-nbd --fork missing.qcow2]: [Could not open 'missing.qcow2': No such file]").
Proof. vm_compute. reflexivity. Qed.

(** C4, the claim as stated fails: the exit status is 1, and what [run]
    raises is not [sshutilError].  On a host that writes its messages in
    Latin-1, it is the [UnicodeDecodeError] of decoding standard error; on a
    host where the session is lost before the log file can be fetched, it
    is the [SSHException] of the second execution. *)
Lemma run_nonzero_without_sshutilError :
  (let r := export_missing_image latin1_host None
              (Scripted.boot latin1_host) in
   Event (recv_exit_status 1%nat) (Returned (VInt 1)) ∈ trace (snd r)
   /\ fst r = Raised (Lib (LibExn UnicodeDecodeError
                             "'utf-8' codec can't decode bytes")))
  /\ (let r := export_missing_image log_unreachable (Some "/tmp/nbd.log")
                 (Scripted.boot log_unreachable) in
      Event (recv_exit_status 1%nat) (Returned (VInt 1)) ∈ trace (snd r)
      /\ fst r = Raised (Lib (LibExn SSHException "SSH session not active"))).
Proof.
  cbv zeta. split; split; try (vm_compute; reflexivity).
  all: vm_compute; repeat constructor.
Qed.

(** The export of an image forks: the result carries the contents of the
    pid file, without the surrounding blank and line feed. *)
Lemma run_returns_pid_witness :
  fst (Client_run (Scripted.env nbd_host) nbd_client
         "qemu-nbd --fork --pid-file=/tmp/nbd.pid vm1.qcow2"
         (Some "/tmp/nbd.pid") None nbd_world)
  = Ok (MkProcessInfo (Some "4711") None "" "").
Proof.
  assert (Hfirst :
    fst (Client__execute (Scripted.env nbd_host) nbd_client
           "qemu-nbd --fork --pid-file=/tmp/nbd.pid vm1.qcow2"
           (logged nbd_world
              (executing "qemu-nbd --fork --pid-file=/tmp/nbd.pid vm1.qcow2")))
    = Ok (0, "", "")).
  { vm_compute. reflexivity. }
  refine (proj1 (proj2 (proj2
            (run_returns_pid (Scripted.env nbd_host) nbd_world nbd_client
               "qemu-nbd --fork --pid-file=/tmp/nbd.pid vm1.qcow2"
               (Some "/tmp/nbd.pid") None "" "" Hfirst))
            _ 0 "" "4711" _)).
  - reflexivity.
  - vm_compute. reflexivity.
Defined.

(** * Further properties *)

(** One more step of a run: an answer of the environment, a class test, or a
    test on an answer. *)
Ltac next_step :=
  first
    [ next_answer
    | match goal with
      | |- context [negb ?b] =>
          is_var b; destruct b;
          cbn [negb fst snd ext_state next_oid trace logs List.find
                 isinstance exn_cls from_option]
      end ].

Lemma last_after {A} (l k : list A) (x : A) :
  last k = Some x -> last (l ++ k) = Some x.
Proof. intros H. now rewrite last_app, H. Qed.

Ltac trace_end :=
  repeat first
    [ rewrite last_snoc
    | match goal with
      | |- last (_ ++ _ :: _) = Some _ => apply last_after; reflexivity
      end
    | progress cbn [value_of exn_str]
    | reflexivity
    | eassumption
    | split
    | eexists ].

Section SinkConstruction.

Context (env : Env).
Implicit Types (w : World env).

(** X1.  Constructing a [Directory] for a target path ends in one of five
    ways.  It returns after the second existence check answered yes, or
    after [os.makedirs] returned.  It raises [OutputCreateDirectory] when the
    path exists and is not a directory, in which case [os.makedirs] is not
    called, or when [os.makedirs] raised an [OSError], whose text it
    carries.  Any other exception of the four calls reaches the caller as it
    is.  [os.makedirs] is only ever called right after an existence check
    that answered no. *)
Theorem Directory_init_outcomes w (dir : string) :
  let r := Directory_init env (Some dir) w in
  let final := last (trace (snd r)) in
  match fst r with
  | Ok d =>
      d = MkDirectory (Some dir) None
      /\ (final = Some (Event (os_path_exists dir) (Returned (VBool true)))
          \/ final = Some (Event (os_makedirs dir) (Returned VUnit)))
  | Raised x =>
      (x = OutputCreateDirectory
             ["Specified target is a file, not a directory"]
       /\ final = Some (Event (os_path_isdir dir) (Returned (VBool false)))
       /\ Forall (fun ev => ev_call ev <> os_makedirs dir)
            (new_events w (snd r)))
      \/ (exists e,
             x = OutputCreateDirectory
                   ["Cant create target directory:"; exn_text e]
             /\ issubclass (exn_cls e) OSError = true
             /\ final = Some (Event (os_makedirs dir) (Threw e)))
      \/ (exists c e,
             x = Lib e /\ final = Some (Event c (Threw e))
             /\ match c with
                | os_makedirs _ => issubclass (exn_cls e) OSError = false
                | _ => True
                end)
  end
  /\ match reverse (new_events w (snd r)) with
     | Event (os_makedirs _) _ :: before =>
         head before
         = Some (Event (os_path_exists dir) (Returned (VBool false)))
     | _ => True
     end.
Proof.
  cbv zeta. unfold Directory_init, Directory__makeDir. cbn [targetDir].
  run_monad. repeat next_step.
  all: unfold new_events; cbn [fst snd ext_state next_oid trace logs];
    rewrite <- ?app_assoc; cbn [app]; rewrite drop_app_length.
  all: split; [| cbn; exact I || reflexivity].
  all: try (split; [reflexivity |]; first [left; trace_end; fail
                                          | right; trace_end; fail]).
  all: try (left; split; [reflexivity |]; split; [trace_end |];
            repeat constructor; discriminate).
  all: try (right; left; eexists; split; [reflexivity |];
            split; [assumption |]; trace_end; fail).
  all: right; right; do 2 eexists; split; [reflexivity |];
    split; [trace_end |]; first [assumption | exact I].
Qed.

End SinkConstruction.

Section SinkConstructionOnFiles.

Implicit Types (st : MemFS.store) (w : World MemFS.env).

(** X2.  A target that is a regular file: the constructor raises
    [OutputCreateDirectory] after the two checks, and the file system is
    what it was: nothing was created, nothing removed. *)
Theorem Directory_init_on_a_file w (dir : string) :
  MemFS.is_file (ext_state w) dir = true ->
  MemFS.is_dir (ext_state w) dir = false ->
  let r := Directory_init MemFS.env (Some dir) w in
  fst r = Raised (OutputCreateDirectory
                    ["Specified target is a file, not a directory"])
  /\ ext_state (snd r) = ext_state w
  /\ new_events w (snd r)
     = [Event (os_path_exists dir) (Returned (VBool true));
        Event (os_path_isdir dir) (Returned (VBool false))].
Proof.
  destruct w as [st n tr lg]. cbn [ext_state]. intros Hfile Hdir. cbv zeta.
  unfold Directory_init, Directory__makeDir. cbn [targetDir]. run_memfs.
  repeat (progress (rewrite ?Hfile, ?Hdir; cbn)).
  repeat split. unfold new_events. cbn [trace].
  rewrite <- app_assoc. apply drop_app_length.
Qed.

(** X3.  When the constructor returns, the target is a directory.  No
    regular file was touched and no directory removed; and if the target did
    not exist before, its parents exist as directories afterwards too. *)
Theorem Directory_init_leaves_a_directory w (dir : string) (d : Directory) :
  let r := Directory_init MemFS.env (Some dir) w in
  fst r = Ok d ->
  MemFS.is_dir (ext_state (snd r)) dir = true
  /\ MemFS.files (ext_state (snd r)) = MemFS.files (ext_state w)
  /\ MemFS.dirs (ext_state w) ⊆ MemFS.dirs (ext_state (snd r))
  /\ (MemFS.is_dir (ext_state w) dir = false ->
      Forall (fun a => MemFS.is_dir (ext_state (snd r)) a = true)
        (MemFS.ancestors (String.length dir) dir)).
Proof.
  cbv zeta. destruct w as [st n tr lg].
  unfold Directory_init, Directory__makeDir. cbn [targetDir]. run_memfs.
  destruct (MemFS.is_dir st dir) eqn:Hdir;
    destruct (MemFS.is_file st dir) eqn:Hfile; cbn.
  - repeat (progress (rewrite ?Hdir, ?Hfile; cbn)).
    intros _. split; [| split; [| split]]; [done | done | done | discriminate].
  - repeat (progress (rewrite ?Hdir, ?Hfile; cbn)).
    intros _. split; [| split; [| split]]; [done | done | done | discriminate].
  - repeat (progress (rewrite ?Hdir, ?Hfile; cbn)). intros [=].
  - repeat (progress (rewrite ?Hdir, ?Hfile; cbn)).
    unfold MemFS.sys_makedirs. rewrite Hdir, Hfile. cbn.
    destruct (existsb (MemFS.is_file st) _); cbn; [intros [=] |].
    intros _. unfold MemFS.is_dir. cbn.
    split; [| split; [| split]].
    + apply bool_decide_eq_true. set_solver.
    + reflexivity.
    + set_solver.
    + intros _. apply Forall_forall. intros a Ha.
      apply bool_decide_eq_true. apply elem_of_union_r.
      apply elem_of_list_to_set. exact Ha.
Qed.

End SinkConstructionOnFiles.

(** A sink for the directory [/backup/vm1/disks] of an empty file system. *)
Lemma Directory_init_leaves_a_directory_witness :
  let r := Directory_init MemFS.env (Some "/backup/vm1/disks") MemFS.boot in
  MemFS.is_dir (ext_state (snd r)) "/backup/vm1/disks" = true
  /\ MemFS.files (ext_state (snd r)) = MemFS.files (ext_state MemFS.boot)
  /\ MemFS.dirs (ext_state MemFS.boot) ⊆ MemFS.dirs (ext_state (snd r))
  /\ (MemFS.is_dir (ext_state MemFS.boot) "/backup/vm1/disks" = false ->
      Forall (fun a => MemFS.is_dir (ext_state (snd r)) a = true)
        (MemFS.ancestors (String.length "/backup/vm1/disks")
           "/backup/vm1/disks")).
Proof.
  apply (Directory_init_leaves_a_directory MemFS.boot "/backup/vm1/disks"
           (MkDirectory (Some "/backup/vm1/disks") None)).
  vm_compute. reflexivity.
Defined.

(** ** What a run adds to the trace *)

Section TraceLogic.

Context {env : Env}.
Implicit Types (P : event -> Prop).

Lemma adds_ret {A} P (a : A) : adds P (ret (env := env) a).
Proof. intros w. exists []. cbn. now rewrite app_nil_r. Qed.

Lemma adds_raise {A} P (e : exn) : adds P (raise (env := env) (A := A) e).
Proof. intros w. exists []. cbn. now rewrite app_nil_r. Qed.

Lemma adds_alloc P : adds P (alloc (env := env)).
Proof. intros w. exists []. cbn. now rewrite app_nil_r. Qed.

Lemma adds_py_log P name lvl f a : adds P (py_log (env := env) name lvl f a).
Proof. intros w. exists []. cbn. now rewrite app_nil_r. Qed.

Lemma adds_extcall P (c : call) :
  (forall o, P (Event c o)) -> adds P (extcall (env := env) c).
Proof.
  intros HP w. unfold extcall.
  destruct (respond env c (ext_state w)) as [[e | a] s];
    eexists [_]; cbn; split; try reflexivity; repeat constructor; apply HP.
Qed.

Lemma adds_bind {A B} P (m : M env A) (k : A -> M env B) :
  adds P m -> (forall a, adds P (k a)) -> adds P (bind m k).
Proof.
  intros Hm Hk w. unfold bind.
  destruct (Hm w) as (evs & Htr & Hevs).
  destruct (m w) as [[a | e] w1]; cbn [snd] in *.
  - destruct (Hk a w1) as (evs' & Htr' & Hevs').
    exists (evs ++ evs'). split.
    + now rewrite Htr', Htr, app_assoc.
    + now apply Forall_app.
  - now exists evs.
Qed.

Lemma adds_try_except {A} P (body : M env A)
    (clauses : list (exn_class * (exn -> M env A))) :
  adds P body ->
  Forall (fun cl => forall e, adds P (snd cl e)) clauses ->
  adds P (try_except body clauses).
Proof.
  intros Hb Hc w. unfold try_except.
  destruct (Hb w) as (evs & Htr & Hevs).
  destruct (body w) as [[a | e] w1]; cbn [snd] in *.
  - now exists evs.
  - destruct (List.find _ clauses) as [cl |] eqn:Hfind.
    + apply find_some in Hfind as [Hin _].
      rewrite Forall_forall in Hc.
      apply list_elem_of_In in Hin.
      destruct (Hc cl Hin e w1) as (evs' & Htr' & Hevs').
      exists (evs ++ evs'). split.
      * now rewrite Htr', Htr, app_assoc.
      * now apply Forall_app.
    + now exists evs.
Qed.

Lemma adds_if {A} P (b : bool) (m1 m2 : M env A) :
  adds P m1 -> adds P m2 -> adds P (if b then m1 else m2).
Proof. now destruct b. Qed.

Lemma adds_new_events {A} P (m : M env A) (w : World env) :
  adds P m -> Forall P (new_events w (snd (m w))).
Proof.
  intros H. destruct (H w) as (evs & Htr & Hevs).
  unfold new_events. now rewrite Htr, drop_app_length.
Qed.

End TraceLogic.

(** Going through a program, statement by statement. *)
Ltac adds_step :=
  first
    [ assumption
    | match goal with
      | H : forall _, adds _ _ |- _ => apply H
      end
    | apply adds_ret
    | apply adds_raise
    | apply adds_alloc
    | apply adds_py_log
    | apply adds_bind; [| intros ?]
    | apply adds_try_except;
      [| repeat first [ apply Forall_nil_2
                      | apply Forall_cons_2; [cbn [snd]; intros ? |] ] ]
    | apply adds_if
    | match goal with
      | |- adds _ (match ?x with _ => _ end) => destruct x
      end ].

Ltac adds_call :=
  match goal with
  | |- adds ?P (extcall ?c) => refine (adds_extcall P c _); intros ?
  end.

Section Session.

Context (env : Env).
Implicit Types (w : World env) (self : Client).

Lemma sftp_adds P self :
  (forall o, P (Event (get_transport (connection self)) o)) ->
  (forall s t o,
      (t = None \/ t = Some (connection self)) ->
      P (Event (SFTPClient_from_transport s t) o)) ->
  adds P (Client_sftp env self).
Proof.
  intros Hg Hf. unfold Client_sftp. repeat adds_step.
  - now apply adds_extcall.
  - apply adds_extcall. intros o. apply Hf. destruct a; auto.
Qed.

Lemma execute_adds P self (cmd : string) :
  (forall ch o, P (Event (exec_command (connection self) ch cmd) o)) ->
  (forall ch o, P (Event (recv_exit_status ch) o)) ->
  (forall ch o, P (Event (stderr_read ch) o)) ->
  (forall ch o, P (Event (stdout_read ch) o)) ->
  adds P (Client__execute env self cmd).
Proof.
  intros H1 H2 H3 H4. unfold Client__execute, decode.
  repeat adds_step; apply adds_extcall; auto.
Qed.

(** X4.  A session, once established, is the only one a client uses.
    [exists], [copyFrom], [copyTo], [run] and [disconnect] never create a
    client object, load host keys, set a policy or connect; every transport
    they ask for, every command they execute and every close is on the
    connection made by the constructor, whatever fails on the way. *)
Theorem session_is_reused w self (a b : string)
    (pidFile logFile : option string) :
  Forall (on_session self) (new_events w (snd (Client_exists env self a w)))
  /\ Forall (on_session self)
       (new_events w (snd (Client_copyFrom env self a b w)))
  /\ Forall (on_session self)
       (new_events w (snd (Client_copyTo env self a b w)))
  /\ Forall (on_session self)
       (new_events w (snd (Client_run env self a pidFile logFile w)))
  /\ Forall (on_session self)
       (new_events w (snd (Client_disconnect env self w))).
Proof.
  assert (Hsftp : adds (on_session self) (Client_sftp env self)).
  { apply sftp_adds; [split; reflexivity |].
    intros s t o [-> | ->]; split; reflexivity. }
  assert (Hexec : forall cmd,
             adds (on_session self) (Client__execute env self cmd)).
  { intros cmd. apply execute_adds; split; reflexivity. }
  repeat split; apply adds_new_events.
  - unfold Client_exists. repeat adds_step; try exact Hsftp.
    adds_call. split; reflexivity.
  - unfold Client_copyFrom. repeat adds_step; try exact Hsftp.
    adds_call. split; reflexivity.
  - unfold Client_copyTo. repeat adds_step; try exact Hsftp.
    adds_call. split; reflexivity.
  - unfold Client_run. repeat adds_step; try apply Hexec.
  - unfold Client_disconnect, object_truth.
    repeat adds_step; try exact Hsftp;
      adds_call; split; reflexivity.
Qed.

(** X5.  [exists], [copyFrom], [copyTo] and [run] close nothing: the SFTP
    client each of the first three derives is still open when the call is
    over, and so is the session. *)
Theorem transfers_close_nothing w self (a b : string)
    (pidFile logFile : option string) :
  let left_open ev := closes (ev_call ev) = false in
  Forall left_open (new_events w (snd (Client_exists env self a w)))
  /\ Forall left_open (new_events w (snd (Client_copyFrom env self a b w)))
  /\ Forall left_open (new_events w (snd (Client_copyTo env self a b w)))
  /\ Forall left_open
       (new_events w (snd (Client_run env self a pidFile logFile w))).
Proof.
  cbv zeta.
  set (P := fun ev => closes (ev_call ev) = false).
  assert (Hsftp : adds P (Client_sftp env self)).
  { apply sftp_adds; reflexivity. }
  assert (Hexec : forall cmd, adds P (Client__execute env self cmd)).
  { intros cmd. apply execute_adds; reflexivity. }
  repeat split; apply adds_new_events.
  - unfold Client_exists. repeat adds_step; try exact Hsftp.
    now adds_call.
  - unfold Client_copyFrom. repeat adds_step; try exact Hsftp.
    now adds_call.
  - unfold Client_copyTo. repeat adds_step; try exact Hsftp.
    now adds_call.
  - unfold Client_run. repeat adds_step; try apply Hexec.
Qed.

End Session.

Ltac new_trace :=
  unfold new_events; cbn [fst snd ext_state next_oid trace logs];
  rewrite <- ?app_assoc; cbn [app]; rewrite drop_app_length.

Section Teardown.

Context (env : Env).
Implicit Types (w : World env) (self : Client).

(** X6.  [disconnect] closes the session as its last step, and only if
    nothing before it raised: when deriving or closing the sub-channel
    fails, the exception reaches the caller and the session is left open.
    Of the two SFTP clients a disconnect derives, the one derived for the
    test is never closed; only the second one can be. *)
Theorem disconnect_closes_session_last w self :
  let r := Client_disconnect env self w in
  let new := new_events w (snd r) in
  let conn := connection self in
  match fst r with
  | Ok _ => last new = Some (Event (SSHClient_close conn) (Returned VUnit))
  | Raised x =>
      (exists e, last new = Some (Event (SSHClient_close conn) (Threw e))
                 /\ x = Lib e)
      \/ Forall (fun ev => closes (ev_call ev) = true ->
                           exists e, ev_out ev = Threw e) new
         /\ Forall (fun ev => ev_call ev <> SSHClient_close conn) new
  end
  /\ Forall (fun ev => match ev_call ev with
                       | sftp_close s => s = S (next_oid w)
                       | _ => True
                       end) new.
Proof.
  cbv zeta. unfold Client_disconnect, Client_sftp, object_truth.
  run_monad. cbn [from_option]. repeat next_step.
  all: new_trace.
  all: split; [| repeat constructor].
  all: try reflexivity.
  all: try (left; eexists; split; reflexivity).
  all: right; split; repeat constructor; cbn; try discriminate;
    intros _; eexists; reflexivity.
Qed.

(** X7.  A connection attempt that fails is reported as [sshutilError] in
    one of two texts: the one for a rejected authentication when the
    exception is an [AuthenticationException], whichever of the four library
    calls raised it, and the one for an unknown failure for every other
    [Exception].  An exception outside [Exception] is not caught.  When the
    attempt succeeds, the new client object is returned. *)
Theorem connect_failure_kinds w (host user : string) :
  match Client_connect env host user w with
  | (Ok c, w') =>
      c = next_oid w
      /\ last (trace w')
         = Some (Event (SSHClient_connect c host user 5000) (Returned VUnit))
  | (Raised x, w') =>
      exists c e,
        last (trace w') = Some (Event c (Threw e))
        /\ x = (if issubclass (exn_cls e) AuthenticationException then
                  sshutilError
                    ("AuthenticationException occurred; did you remember to generate an SSH key? "
                     +:+ exn_text e)
                else if issubclass (exn_cls e) PyException then
                  sshutilError ("Unknown exception occured: " +:+ exn_text e)
                else Lib e)
  end.
Proof.
  unfold Client_connect. run_monad. repeat next_step.
  all: try (split; [reflexivity | trace_end]; fail).
  all: do 2 eexists; split; [trace_end |];
    rewrite ?Hcls, ?Hcls0; reflexivity.
Qed.

Lemma connect_returns_new w (host user : string) c :
  fst (Client_connect env host user w) = Ok c -> c = next_oid w.
Proof.
  unfold Client_connect. run_monad. repeat next_step; cbn [fst];
    intros [=]; congruence.
Qed.

(** X8.  The client a construction returns has the host and user it was
    given, the connection object the construction created, and a [copy] that
    uploads if and only if the mode given was [UPLOAD]. *)
Theorem copy_follows_mode w (host user : string) (mode : Mode) self :
  fst (Client_init env host user mode w) = Ok self ->
  self = MkClient None host user
           (match mode with
            | UPLOAD => bound_copyTo
            | DOWNLOAD => bound_copyFrom
            end) (next_oid w)
  /\ forall (a b : string) w',
       Client_copy env self a b w'
       = match mode with
         | UPLOAD => Client_copyTo env self a b w'
         | DOWNLOAD => Client_copyFrom env self a b w'
         end.
Proof.
  unfold Client_init. unfold bind at 1.
  pose proof (connect_returns_new w host user) as Hc.
  destruct (Client_connect env host user w) as [[c | x] w1];
    cbn [fst]; [| intros [=]].
  specialize (Hc c eq_refl). subst c.
  intros [= <-]. split; [reflexivity |].
  intros a b w'. unfold Client_copy. cbn [copy]. now destruct mode.
Qed.

End Teardown.

(** The client of an upload, constructed on a host where nothing fails. *)
Lemma copy_follows_mode_witness :
  let self := MkClient None "hv1" "root" bound_copyTo 0%nat in
  self = MkClient None "hv1" "root" bound_copyTo
           (next_oid (Scripted.boot quiet_host))
  /\ forall (a b : string) w',
       Client_copy (Scripted.env quiet_host) self a b w'
       = Client_copyTo (Scripted.env quiet_host) self a b w'.
Proof.
  apply (copy_follows_mode (Scripted.env quiet_host)
           (Scripted.boot quiet_host) "hv1" "root" UPLOAD).
  vm_compute. reflexivity.
Defined.

(** ** Stripping *)

Lemma lstrip_of_strip (s : string) :
  PyBytes.lstrip (PyBytes.strip s) = PyBytes.strip s.
Proof.
  unfold PyBytes.strip. induction s as [| c s IH]; [reflexivity |].
  cbn [PyBytes.lstrip]. destruct (PyBytes.is_space c) eqn:Hc; [exact IH |].
  cbn [PyBytes.rstrip].
  destruct (PyBytes.rstrip s); rewrite ?Hc; cbn [PyBytes.lstrip];
    now rewrite Hc.
Qed.

Lemma rstrip_idempotent (s : string) :
  PyBytes.rstrip (PyBytes.rstrip s) = PyBytes.rstrip s.
Proof.
  induction s as [| c s IH]; [reflexivity |].
  cbn [PyBytes.rstrip].
  destruct (PyBytes.rstrip s) as [| c' r] eqn:Hr.
  - destruct (PyBytes.is_space c) eqn:Hc; [reflexivity |].
    cbn [PyBytes.rstrip]. now rewrite Hc.
  - cbn [PyBytes.rstrip] in *. 
    destruct (PyBytes.rstrip r) as [| c'' r'] eqn:Hr'.
    + destruct (PyBytes.is_space c'); [discriminate |]. now rewrite IH.
    + now rewrite IH.
Qed.

Lemma strip_trimmed (s : string) : trimmed (PyBytes.strip s).
Proof.
  split; [apply lstrip_of_strip |].
  unfold PyBytes.strip. apply rstrip_idempotent.
Qed.

Section CommandResults.

Context (env : Env).
Implicit Types (w : World env) (self : Client).

Ltac decode_step :=
  first
    [ next_step
    | match goal with
      | H : PyBytes.valid_utf8 (PyBytes.strip ?raw) = _
        |- context [PyBytes.valid_utf8 (PyBytes.strip ?raw)] =>
          rewrite H; cbn [fst snd ext_state next_oid trace logs]
      | |- context [PyBytes.valid_utf8 (PyBytes.strip ?raw)] =>
          let H := fresh "Hutf" in
          destruct (PyBytes.valid_utf8 (PyBytes.strip raw)) eqn:H;
          cbn [fst snd ext_state next_oid trace logs]
      end ].

(** X9.  What [_execute] returns as standard error and standard output is
    well-formed UTF-8 without leading or trailing whitespace.  It raises
    [UnicodeDecodeError] when the stripped bytes of either stream are not
    well-formed; if those are the bytes of standard error, standard output
    is never read.  Any other exception out of it is one a library call
    raised, and that call was the last one made. *)
Theorem execute_outcomes w self (cmd : string) :
  let ch := next_oid w in
  match Client__execute env self cmd w with
  | (Ok (_, err, out), w') =>
      trimmed err /\ trimmed out
      /\ PyBytes.valid_utf8 err = true /\ PyBytes.valid_utf8 out = true
      /\ exists raw,
           out = PyBytes.strip raw
           /\ last (trace w')
              = Some (Event (stdout_read ch) (Returned (VBytes raw)))
  | (Raised x, w') =>
      (exists c e, last (trace w') = Some (Event c (Threw e)) /\ x = Lib e)
      \/ (exists text raw,
             x = Lib (LibExn UnicodeDecodeError text)
             /\ PyBytes.valid_utf8 (PyBytes.strip raw) = false
             /\ (last (trace w')
                 = Some (Event (stderr_read ch) (Returned (VBytes raw)))
                 \/ last (trace w')
                    = Some (Event (stdout_read ch) (Returned (VBytes raw)))))
  end.
Proof.
  cbv zeta. unfold Client__execute, decode. run_monad.
  repeat decode_step.
  all: try (left; do 2 eexists; split; [trace_end | reflexivity]; fail).
  all: try (right; do 2 eexists; split; [reflexivity |];
            split; [eassumption |];
            first [left; trace_end; fail | right; trace_end; fail]).
  repeat split; try apply strip_trimmed; try assumption.
  eexists. split; [reflexivity | trace_end].
Qed.

End CommandResults.

Section RunResults.

Context (env : Env).
Implicit Types (w : World env) (self : Client).

Ltac tidy := cbn [fst snd ext_state next_oid trace logs negb].

Ltac run_step :=
  first
    [ next_step
    | match goal with
      | H : PyBytes.valid_utf8 (PyBytes.strip ?raw) = _
        |- context [PyBytes.valid_utf8 (PyBytes.strip ?raw)] =>
          rewrite H; tidy
      | |- context [PyBytes.valid_utf8 (PyBytes.strip ?raw)] =>
          let H := fresh "Hutf" in
          destruct (PyBytes.valid_utf8 (PyBytes.strip raw)) eqn:H; tidy
      | H : (?z =? 0) = _ |- context [?z =? 0] => rewrite H; tidy
      | |- context [?z =? 0] =>
          let H := fresh "Hret" in destruct (z =? 0) eqn:H; tidy
      | H : truthy ?o = _ |- context [truthy ?o] => rewrite H; tidy
      | |- context [truthy ?o] =>
          let H := fresh "Hgiven" in destruct (truthy o) eqn:H; tidy
      end ].

(** X10.  [run] executes the command and then at most one more: [cat] of the
    log file, when one was given and [run] ends in an exception, or [cat] of
    the pid file, when one was given and [run] does not end in an
    [sshutilError].  It never reads both files, and without the file's path
    it reads neither. *)
Theorem run_fetches_at_most_one_file w self (cmd : string)
    (pidFile logFile : option string) :
  let r := Client_run env self cmd pidFile logFile w in
  let cmds := commands (new_events w (snd r)) in
  cmds = [cmd]
  \/ (truthy logFile = true
      /\ cmds = [cmd; "cat " +:+ fstr logFile]
      /\ exists x, fst r = Raised x)
  \/ (truthy pidFile = true
      /\ cmds = [cmd; "cat " +:+ fstr pidFile]
      /\ forall msg, fst r <> Raised (sshutilError msg)).
Proof.
  cbv zeta. unfold Client_run, Client__execute, decode. run_monad.
  repeat run_step.
  all: new_trace.
  all: first
    [ left; reflexivity
    | right; left; split; [reflexivity |]; split; [reflexivity |];
      eexists; reflexivity
    | right; right; split; [reflexivity |]; split; [reflexivity |];
      intros msg; cbn; discriminate ].
Qed.

(** X11.  When [run] returns a result, the command had exit status zero;
    the result's standard error, standard output and pid carry no leading or
    trailing whitespace; its log file is the path that was given, read or
    not; and its pid is set exactly when a pid file was given. *)
Theorem run_result_is_clean w self (cmd : string)
    (pid_file log_file : option string) (info : processInfo) :
  let r := Client_run env self cmd pid_file log_file w in
  fst r = Ok info ->
  Event (recv_exit_status (next_oid w)) (Returned (VInt 0))
  ∈ new_events w (snd r)
  /\ trimmed (err info) /\ trimmed (out info)
  /\ logFile info = log_file
  /\ match pid info with
     | Some p => truthy pid_file = true /\ trimmed p
     | None => truthy pid_file = false
     end.
Proof.
  cbv zeta. unfold Client_run, Client__execute, decode. run_monad.
  repeat run_step.
  all: cbn [fst]; try (intros [=]; fail).
  all: intros [= <-]; cbn [pid logFile err out].
  all: new_trace.
  all: split; [cbn [value_of]; apply Z.eqb_eq in Hret; subst;
               repeat constructor |].
  all: repeat split; try apply strip_trimmed; reflexivity.
Qed.

End RunResults.

Section ArchiveMembers.

Context (env : Env).
Implicit Types (w : World env).

(** X12.  [Zip.open] reads the clock first.  The member it then asks the
    archive to open is named by the given name up to its first NUL byte (as
    [ZipInfo] makes it), carries the clock's reading down to the second, and
    is stored, with [force_zip64] set, in the mode given.  Of the exceptions
    of that call only [zipfile.error] becomes [OutputOpenException]; any
    other, a [ValueError] of the library among them, reaches the caller as
    it is, and so does an exception of the clock, after which the archive is
    not called at all. *)
Theorem Zip_open_outcomes w (self : Zip) (fileName mode : string) :
  let r := Zip_open env self fileName mode w in
  let new := new_events w (snd r) in
  match respond env datetime_now (ext_state w) with
  | (inl e, _) => fst r = Raised (Lib e) /\ new = [Event datetime_now (Threw e)]
  | (inr now, s) =>
      match zipStream self with
      | None =>
          fst r = Raised (NoneType_has_no "open")
          /\ new = [Event datetime_now (Returned (VTime now))]
      | Some z =>
          let h := next_oid w in
          let member :=
            MkZipInfo (PyBytes.cut_at_nul fileName)
              (year now, month now, day now, hour now, minute now,
               second now) ZIP_STORED in
          let c := ZipFile_open z h member mode true in
          match respond env c s with
          | (inr _, _) =>
              fst r = Ok (h, MkZip (Some z) (Some h))
              /\ new = [Event datetime_now (Returned (VTime now));
                        Event c (Returned VUnit)]
          | (inl e, _) =>
              fst r = (if issubclass (exn_cls e) BadZipFile then
                         Raised (OutputOpenException
                                   ("Unable to open zip stream: "
                                    +:+ exn_text e))
                       else Raised (Lib e))
              /\ new = [Event datetime_now (Returned (VTime now));
                        Event c (Threw e)]
          end
      end
  end.
Proof.
  cbv zeta. unfold Zip_open. run_monad.
  destruct (respond env datetime_now (ext_state w)) as [[e | now] s].
  - cbn [fst snd]. split; [reflexivity | new_trace; reflexivity].
  - cbn [fst snd ext_state next_oid trace logs].
    destruct (zipStream self) as [z |].
    + cbn [fst snd ext_state next_oid trace logs List.find].
      unfold timetuple, replace_microsecond, ZipInfo_init, with_date_time,
        with_compress_type.
      cbn [year month day hour minute second filename date_time
             compress_type].
      destruct (respond env _ s) as [[e | []] s'];
        cbn [fst snd ext_state next_oid trace logs List.find isinstance
               exn_cls].
      * destruct (issubclass (exn_cls e) BadZipFile);
          cbn [fst snd]; (split; [reflexivity | new_trace; reflexivity]).
      * cbn [fst snd]. split; [reflexivity | new_trace; reflexivity].
    + cbn [fst snd List.find].
      change (isinstance (NoneType_has_no "open") BadZipFile) with false.
      cbn [fst snd]. split; [reflexivity | new_trace; reflexivity].
Qed.

(** X13.  A [Directory] keeps one handle.  When a second entry is opened
    before the first was closed, the write and the close that follow go to
    the second file object; the sink never writes to, flushes or closes the
    first one again. *)
Theorem second_open_replaces_handle w (self : Directory) (a b data : string) :
  let r := open_twice env self a b data w in
  Forall (fun ev => match file_used (ev_call ev) with
                    | Some h => h = S (next_oid w)
                    | None => True
                    end) (new_events w (snd r))
  /\ match fst r with
     | Ok _ =>
         last (trace (snd r))
         = Some (Event (file_close (S (next_oid w))) (Returned VUnit))
     | Raised _ => True
     end.
Proof.
  cbv zeta. unfold open_twice, Directory_open, Directory_write,
    Directory_close. run_monad. repeat next_step.
  all: cbn [fileHandle fst snd ext_state next_oid trace logs List.find
              isinstance exn_cls].
  all: repeat next_step.
  all: new_trace.
  all: split; [repeat constructor | first [exact I | trace_end]].
Qed.

End ArchiveMembers.

Section EntriesOnFiles.

Implicit Types (st : MemFS.store) (w : World MemFS.env).

(** X14.  An archive only grows.  On a [Zip] sink that holds its archive and
    has no member open, an entry cycle returns and adds one member after the
    members that were there, which stay as they were.  The member holds the
    chunks end to end and is named by the given name up to its first NUL
    byte.  A name that is already taken is not refused: the archive then
    holds both members.  Files and directories are not touched. *)
Theorem archive_is_append_only (z : Zip) (zs : oid) (name : string)
    (chunks : list string) w :
  zipStream z = Some zs ->
  MemFS.writing (ext_state w) = None ->
  let st := ext_state w in
  let r := write_entry MemFS.env (ZipSink z) name chunks w in
  let st' := ext_state (snd r) in
  fst r = Ok (ZipSink (MkZip (Some zs) (Some (next_oid w))),
              PyBytes.len <$> chunks)
  /\ MemFS.members st'
     = MemFS.members st ++ [(PyBytes.cut_at_nul name, PyBytes.join chunks)]
  /\ MemFS.writing st' = None
  /\ MemFS.files st' = MemFS.files st
  /\ MemFS.dirs st' = MemFS.dirs st.
Proof.
  intros Hz Hw. cbv zeta.
  destruct (Zip_cycle_store z zs name chunks w Hz Hw) as (tr' & ->).
  repeat split.
Qed.

(** X15.  While a member is being written, a second [open] on the same
    [Zip] fails with the [ValueError] of the library, which is not turned
    into [OutputOpenException]; the archive and the member being written are
    what they were. *)
Theorem Zip_open_while_writing w (z : Zip) (zs : oid) (name : string)
    (member : oid * (string * string)) :
  zipStream z = Some zs ->
  MemFS.writing (ext_state w) = Some member ->
  let r := Zip_open MemFS.env z name Zip_open_default_mode w in
  (exists text, fst r = Raised (Lib (LibExn ValueError text)))
  /\ ext_state (snd r) = ext_state w.
Proof.
  destruct w as [st n tr lg]. cbn [ext_state]. intros Hz Hw. cbv zeta.
  unfold Zip_open, Zip_open_default_mode. run_memfs. rewrite Hz.
  run_memfs. unfold MemFS.zip_open.
  cbn [negb String.eqb Ascii.eqb Bool.eqb]. rewrite Hw.
  cbn. split; [eexists; reflexivity | reflexivity].
Qed.


End EntriesOnFiles.

Section BeforeOpen.

Context (env : Env).
Implicit Types (w : World env).

(** X17.  Constructing a [Zip] logs that the archive goes to standard
    output, whether or not the construction then succeeds, and opens the
    archive for exclusive creation, stored.  It returns an object with no
    member open.  Of the exceptions of the library only [zipfile.error]
    becomes [OutputOpenException]; any other reaches the caller as it is. *)
Theorem Zip_init_outcomes w :
  let r := Zip_init env w in
  let c := ZipFile_init (next_oid w) "x" ZIP_STORED in
  logs (snd r)
  = logs w ++ [LogRecord outputhelper_logger INFO
                 "Writing zip file stream to stdout" []]
  /\ match respond env c (ext_state w) with
     | (inr _, _) =>
         fst r = Ok (MkZip (Some (next_oid w)) None)
         /\ new_events w (snd r) = [Event c (Returned VUnit)]
     | (inl e, _) =>
         fst r = (if issubclass (exn_cls e) BadZipFile then
                    Raised (OutputOpenException
                              ("Unable to open zip stream: " +:+ exn_text e))
                  else Raised (Lib e))
         /\ new_events w (snd r) = [Event c (Threw e)]
     end.
Proof.
  cbv zeta. unfold Zip_init. run_monad.
  destruct (respond env _ (ext_state w)) as [[e | []] s];
    cbn [fst snd ext_state next_oid trace logs List.find isinstance exn_cls].
  - destruct (issubclass (exn_cls e) BadZipFile); cbn [fst snd logs];
      (split; [reflexivity |]; split; [reflexivity | new_trace; reflexivity]).
  - split; [reflexivity |]; split; [reflexivity | new_trace; reflexivity].
Qed.

(** X18.  A sink that was constructed and on which no entry has been opened
    yet has no handle: [write], [flush] and [close] on a new [Directory],
    and [write] and [close] on a new [Zip], raise [AttributeError] and call
    nothing. *)
Theorem no_entry_before_open w (target : option string) (data : string) :
  match Directory_init env target w with
  | (Ok d, w') =>
      Directory_write env d data w' = (Raised (NoneType_has_no "write"), w')
      /\ Directory_flush env d w' = (Raised (NoneType_has_no "flush"), w')
      /\ Directory_close env d w' = (Raised (NoneType_has_no "close"), w')
  | (Raised _, _) => True
  end
  /\ match Zip_init env w with
     | (Ok z, w') =>
         Zip_write env z data w' = (Raised (NoneType_has_no "write"), w')
         /\ Zip_close env z w' = (Raised (NoneType_has_no "close"), w')
     | (Raised _, _) => True
     end.
Proof.
  split.
  - destruct target as [dir |]; [| cbn; repeat split].
    unfold Directory_init, Directory__makeDir. cbn [targetDir]. run_monad.
    repeat next_step; first [exact I | repeat split].
  - unfold Zip_init. run_monad.
    repeat next_step; first [exact I | repeat split].
Qed.

End BeforeOpen.

(** ** Concrete runs of the further properties *)

(** The image file is not accepted as a target directory. *)
Lemma Directory_init_on_a_file_witness :
  let w := snd (write_disk_image MemFS.boot) in
  let r := Directory_init MemFS.env (Some "disk.img") w in
  fst r = Raised (OutputCreateDirectory
                    ["Specified target is a file, not a directory"])
  /\ ext_state (snd r) = ext_state w
  /\ new_events w (snd r)
     = [Event (os_path_exists "disk.img") (Returned (VBool true));
        Event (os_path_isdir "disk.img") (Returned (VBool false))].
Proof.
  apply (Directory_init_on_a_file (snd (write_disk_image MemFS.boot))
           "disk.img"); vm_compute; reflexivity.
Defined.

(** A second member named [vm1.xml] is added after the first. *)
Lemma archive_is_append_only_witness :
  let w := snd (archive_with_member MemFS.boot) in
  let r := write_entry MemFS.env (ZipSink (MkZip (Some 0%nat) (Some 1%nat)))
             "vm1.xml" ["<domain>"; "</domain>"] w in
  fst r = Ok (ZipSink (MkZip (Some 0%nat) (Some 2%nat)), [8; 9])
  /\ MemFS.members (ext_state (snd r))
     = [("vm1.xml", "<domain/>"); ("vm1.xml", "<domain></domain>")]
  /\ MemFS.writing (ext_state (snd r)) = None
  /\ MemFS.files (ext_state (snd r)) = MemFS.files (ext_state w)
  /\ MemFS.dirs (ext_state (snd r)) = MemFS.dirs (ext_state w).
Proof.
  apply (archive_is_append_only (MkZip (Some 0%nat) (Some 1%nat)) 0%nat
           "vm1.xml" ["<domain>"; "</domain>"]
           (snd (archive_with_member MemFS.boot)));
    vm_compute; reflexivity.
Defined.

(** A second member cannot be opened while [vm1.xml] is being written. *)
Lemma Zip_open_while_writing_witness :
  let w := snd (archive_with_open_member MemFS.boot) in
  let r := Zip_open MemFS.env (MkZip (Some 0%nat) (Some 1%nat)) "vm1.qcow2"
             Zip_open_default_mode w in
  (exists text, fst r = Raised (Lib (LibExn ValueError text)))
  /\ ext_state (snd r) = ext_state w.
Proof.
  apply (Zip_open_while_writing (snd (archive_with_open_member MemFS.boot))
           (MkZip (Some 0%nat) (Some 1%nat)) 0%nat "vm1.qcow2"
           (1%nat, ("vm1.xml", ""))); [reflexivity |].
  vm_compute. reflexivity.
Defined.


(** The export of an image: exit status zero, pid without the blank and the
    line feed around it. *)
Lemma run_result_is_clean_witness :
  let r := Client_run (Scripted.env nbd_host) nbd_client
             "qemu-nbd --fork --pid-file=/tmp/nbd.pid vm1.qcow2"
             (Some "/tmp/nbd.pid") (Some "/tmp/nbd.log") nbd_world in
  let info := MkProcessInfo (Some "4711") (Some "/tmp/nbd.log") "" "" in
  Event (recv_exit_status (next_oid nbd_world)) (Returned (VInt 0))
  ∈ new_events nbd_world (snd r)
  /\ trimmed (err info) /\ trimmed (out info)
  /\ logFile info = Some "/tmp/nbd.log"
  /\ match pid info with
     | Some p => truthy (Some "/tmp/nbd.pid") = true /\ trimmed p
     | None => truthy (Some "/tmp/nbd.pid") = false
     end.
Proof.
  apply (run_result_is_clean (Scripted.env nbd_host) nbd_world nbd_client
           "qemu-nbd --fork --pid-file=/tmp/nbd.pid vm1.qcow2"
           (Some "/tmp/nbd.pid") (Some "/tmp/nbd.log")
           (MkProcessInfo (Some "4711") (Some "/tmp/nbd.log") "" "")).
  vm_compute. reflexivity.
Defined.
